(** * AQI forecasting data preparation: breakpoint converter and daily merge

    A shallow embedding of [src/Data/aqi_formulation.py] and of the table
    transformations of [src/Data/merge_daily_data.py], with the properties
    of the specification stated and settled against them.

    Numbers are the ones Python computes with: a pandas cell and a Python
    [float] are IEEE 754 binary64 values, modelled by Rocq's primitive
    [float]; a Python [int] is a [Z].  The missing value is the float NaN.
    The converter is called on the cells of float columns, so its numeric
    argument is a [float].  The integer literals of the tables are far
    below 2^53, so each is exact as a binary64 value and Python's mixed
    int and float arithmetic on them is float arithmetic on those values. *)

From Stdlib Require Import ZArith List String Ascii Bool Lia Permutation.
From Stdlib Require Import Orders Sorted Mergesort.
From Stdlib Require Import Floats.
Import ListNotations.

Set Warnings "-inexact-float".

#[local] Open Scope Z_scope.

(* ================================================================= *)
(** ** Python values, exceptions and numeric built-ins *)

Module Py.

(** The exceptions the modelled code can raise. *)
Inductive exn : Type :=
| KeyError
| ZeroDivisionError
| OverflowError
| ValueError.

(** A computation that returns a value or raises. *)
Inductive res (A : Type) : Type :=
| Ok (a : A)
| Raise (e : exn).
Arguments Ok {A} a.
Arguments Raise {A} e.

Definition bind {A B : Type} (m : res A) (k : A -> res B) : res B :=
  match m with
  | Ok a => k a
  | Raise e => Raise e
  end.

(** A Python number as the converter returns it: [round(x)] is an [int],
    a propagated zero or NaN and [round(x, 1)] are [float]s. *)
Inductive num : Type :=
| Int (z : Z)
| Float (f : float).

(** [float(z)] for a Python int: the nearest binary64 value (the ints of
    the modelled code stay far below the overflow threshold). *)
Definition of_int (z : Z) : float :=
  SF2Prim (binary_normalize prec emax z 0 false).

(** [np.isnan(x)]. *)
Definition isnan (x : float) : bool := PrimFloat.is_nan x.

(** [a / b]: true division raises on a zero divisor, int or float. *)
Definition div (a b : float) : res float :=
  if PrimFloat.eqb b 0 then Raise ZeroDivisionError else Ok (PrimFloat.div a b).

(** Nearest integer to [m * 2^e], ties to the even one ([m >= 0]). *)
Definition round_half_even (m e : Z) : Z :=
  match e with
  | Zneg p =>
      let d := Z.pow_pos 2 p in
      let q := m / d in
      let r := m mod d in
      match 2 * r ?= d with
      | Lt => q
      | Gt => q + 1
      | Eq => if Z.even q then q else q + 1
      end
  | _ => m * 2 ^ e
  end.

(** [round(x)] on a float: the nearest int, ties to even; NaN and the
    infinities raise. *)
Definition round (x : float) : res Z :=
  match Prim2SF x with
  | S754_nan => Raise ValueError
  | S754_infinity _ => Raise OverflowError
  | S754_zero _ => Ok 0
  | S754_finite s m e => Ok (cond_Zopp s (round_half_even (Zpos m) e))
  end.

(** [round(x, 1)] on a float: the exact value of [x] is rounded to one
    decimal (ties to even) and the binary64 value nearest to that decimal
    is returned; zeros, infinities and NaN are returned as they are. *)
Definition round1 (x : float) : float :=
  match Prim2SF x with
  | S754_finite s m e =>
      match round_half_even (10 * Zpos m) e with
      | Zpos n => SF2Prim (SFdiv prec emax (S754_finite s n 0) (S754_finite false 10 0))
      | _ => SF2Prim (S754_zero s)
      end
  | _ => x
  end.

End Py.

Notation "x <- m ;; k" := (Py.bind m (fun x => k))
  (at level 61, m at next level, right associativity).

(* ================================================================= *)
(** ** [aqi_formulation.py]: the breakpoint converter *)

Module aqi_formulation.
Import Py.
#[local] Open Scope float_scope.

(** [range(start, stop, 1)]; every range of the source has step 1 and is
    not empty. *)
Record range : Type := mkrange { start : Z; stop : Z }.

(** The elements [start, start+1, ..., stop-1]. *)
Definition range_elems (r : range) : list Z :=
  map (fun i => (start r + Z.of_nat i)%Z) (seq 0 (Z.to_nat (stop r - start r))).

(** [max(r)] and [min(r)]. *)
Definition range_max (r : range) : Z := (stop r - 1)%Z.
Definition range_min (r : range) : Z := start r.

(** [I in r] for a float [I]: Python searches the range for an element
    equal to [I]. *)
Definition range_contains (r : range) (I : float) : bool :=
  existsb (fun k => of_int k =? I) (range_elems r).

(** A dict in insertion order, and [d[k]] on string keys. *)
Fixpoint lookup {A : Type} (k : string) (d : list (string * A)) : res A :=
  match d with
  | [] => Raise KeyError
  | (k', v) :: d' => if String.eqb k k' then Ok v else lookup k d'
  end.

(** The four anchors of the interpolation, all initialised to 0. *)
Record anchors : Type := mkanchors { Xa : float; Xb : float; Ia : Z; Ib : Z }.
Definition anchors0 : anchors := mkanchors 0 0 0 0.

Module c2a.

(** The table of [concentration_to_aqi]: for each pollutant, the upper
    concentration of each class and the class's index range. *)
Definition aqi_conversion_table : list (string * list (float * range)) :=
  [ ("pm25"%string,
      [ (15.5, mkrange 1 (50+1));
        (55.4, mkrange 51 (100+1));
        (150.4, mkrange 101 (200+1));
        (250.4, mkrange 201 (300+1));
        (500, mkrange 301 (301+1)) ]);
    ("pm10"%string,
      [ (50, mkrange 1 (50+1));
        (150, mkrange 51 (100+1));
        (350, mkrange 101 (200+1));
        (420, mkrange 201 (300+1));
        (500, mkrange 301 (301+1)) ]);
    ("so2"%string,
      [ (52, mkrange 1 (50+1));
        (180, mkrange 51 (100+1));
        (400, mkrange 101 (200+1));
        (800, mkrange 201 (300+1));
        (1200, mkrange 301 (301+1)) ]);
    ("co"%string,
      [ (4000, mkrange 1 (50+1));
        (8000, mkrange 51 (100+1));
        (15000, mkrange 101 (200+1));
        (30000, mkrange 201 (300+1));
        (45000, mkrange 301 (301+1)) ]);
    ("o3"%string,
      [ (120, mkrange 1 (50+1));
        (235, mkrange 51 (100+1));
        (400, mkrange 101 (200+1));
        (800, mkrange 201 (300+1));
        (1000, mkrange 301 (301+1)) ]);
    ("no2"%string,
      [ (80, mkrange 1 (50+1));
        (200, mkrange 51 (100+1));
        (1130, mkrange 101 (200+1));
        (2260, mkrange 201 (300+1));
        (3000, mkrange 301 (301+1)) ]) ].

(** [temp[0]] and [temp[-1]] with the ranges stored under them; they are
    evaluated inside the loop only, where the table is not empty. *)
Definition first_entry (tbl : list (float * range)) : float * range :=
  hd (0, mkrange 0 0) tbl.
Definition last_entry (tbl : list (float * range)) : float * range :=
  last tbl (0, mkrange 0 0).

(** The lower anchor, the same expression in both branches of the loop. *)
Definition lower_Xb (tbl : list (float * range)) (Xx : float) : float :=
  if fst (first_entry tbl) <? Xx then fst (first_entry tbl) else 0.
Definition lower_Ib (tbl : list (float * range)) (Xx : float) : Z :=
  if fst (first_entry tbl) <? Xx then range_max (snd (first_entry tbl))
  else range_min (snd (first_entry tbl)).

(** The [for key in ...keys()] loop: the first key that bounds [Xx] from
    above sets the anchors and breaks; so does any iteration at which [Xx]
    is above the last key.  Falling off the end leaves the anchors at 0. *)
Fixpoint loop (tbl : list (float * range)) (Xx : float)
    (keys : list (float * range)) : anchors :=
  match keys with
  | [] => anchors0
  | (key, rng) :: rest =>
      if Xx <=? key then
        mkanchors key (lower_Xb tbl Xx) (range_max rng) (lower_Ib tbl Xx)
      else if fst (last_entry tbl) <? Xx then
        mkanchors (fst (last_entry tbl)) (lower_Xb tbl Xx)
                  (range_max (snd (last_entry tbl))) (lower_Ib tbl Xx)
      else loop tbl Xx rest
  end.

(** [round(((Ia - Ib) / (Xa - Xb)) * (Xx - Xb) + Ib)]. *)
Definition interpolate (a : anchors) (Xx : float) : res Z :=
  slope <- div (of_int (Ia a - Ib a)) (Xa a - Xb a) ;;
  round (slope * (Xx - Xb a) + of_int (Ib a)).

Definition concentration_to_aqi (aqi_parameter : string) (Xx : float) : res num :=
  tbl <- lookup aqi_parameter aqi_conversion_table ;;
  if negb (Xx =? 0) && negb (isnan Xx) then
    I <- interpolate (loop tbl Xx tbl) Xx ;;
    Ok (Int I)
  else if (Xx =? 0) || isnan Xx then Ok (Float Xx)
  else Ok (Int 0).

End c2a.

Module a2c.

(** The table of [aqi_to_concentration]: the same classes, keyed by the
    index range. *)
Definition aqi_conversion_table : list (string * list (range * float)) :=
  [ ("pm25"%string,
      [ (mkrange 1 (50+1), 15.5);
        (mkrange 51 (100+1), 55.4);
        (mkrange 101 (200+1), 150.4);
        (mkrange 201 (300+1), 250.4);
        (mkrange 301 (301+1), 500) ]);
    ("pm10"%string,
      [ (mkrange 1 (50+1), 50);
        (mkrange 51 (100+1), 150);
        (mkrange 101 (200+1), 350);
        (mkrange 201 (300+1), 420);
        (mkrange 301 (301+1), 500) ]);
    ("so2"%string,
      [ (mkrange 1 (50+1), 52);
        (mkrange 51 (100+1), 180);
        (mkrange 101 (200+1), 400);
        (mkrange 201 (300+1), 800);
        (mkrange 301 (301+1), 1200) ]);
    ("co"%string,
      [ (mkrange 1 (50+1), 4000);
        (mkrange 51 (100+1), 8000);
        (mkrange 101 (200+1), 15000);
        (mkrange 201 (300+1), 30000);
        (mkrange 301 (301+1), 45000) ]);
    ("o3"%string,
      [ (mkrange 1 (50+1), 120);
        (mkrange 51 (100+1), 235);
        (mkrange 101 (200+1), 400);
        (mkrange 201 (300+1), 800);
        (mkrange 301 (301+1), 1000) ]);
    ("no2"%string,
      [ (mkrange 1 (50+1), 80);
        (mkrange 51 (100+1), 200);
        (mkrange 101 (200+1), 1130);
        (mkrange 201 (300+1), 2260);
        (mkrange 301 (301+1), 3000) ]) ].

Definition first_entry (tbl : list (range * float)) : range * float :=
  hd (mkrange 0 0, 0) tbl.
Definition last_entry (tbl : list (range * float)) : range * float :=
  last tbl (mkrange 0 0, 0).

(** [I > max(temp[0])]. *)
Definition above_first (tbl : list (range * float)) (I : float) : bool :=
  of_int (range_max (fst (first_entry tbl))) <? I.

Definition lower_Ib (tbl : list (range * float)) (I : float) : Z :=
  if above_first tbl I then range_max (fst (first_entry tbl)) else 0%Z.

(** The loop over the index ranges: membership in a range sets the anchors
    (the lower concentration is the first class's, or 0 inside the first
    class); an index above the last range takes the last class and the
    first class's concentration. *)
Fixpoint loop (tbl : list (range * float)) (I : float)
    (keys : list (range * float)) : anchors :=
  match keys with
  | [] => anchors0
  | (key, conc) :: rest =>
      if range_contains key I then
        mkanchors conc
                  (if above_first tbl I then snd (first_entry tbl) else 0)
                  (range_max key) (lower_Ib tbl I)
      else if of_int (range_max (fst (last_entry tbl))) <? I then
        mkanchors (snd (last_entry tbl)) (snd (first_entry tbl))
                  (range_max (fst (last_entry tbl))) (lower_Ib tbl I)
      else loop tbl I rest
  end.

(** [round(((Xa - Xb) / (Ia - Ib)) * (I - Ib) + Xb, 1)]. *)
Definition interpolate (a : anchors) (I : float) : res float :=
  slope <- div (Xa a - Xb a) (of_int (Ia a - Ib a)) ;;
  Ok (round1 (slope * (I - of_int (Ib a)) + Xb a)).

Definition aqi_to_concentration (aqi_parameter : string) (I : float) : res num :=
  tbl <- lookup aqi_parameter aqi_conversion_table ;;
  if negb (I =? 0) && negb (isnan I) then
    Xx <- interpolate (loop tbl I tbl) I ;;
    Ok (Float Xx)
  else if (I =? 0) || isnan I then Ok (Float I)
  else Ok (Int 0).

End a2c.

Definition concentration_to_aqi := c2a.concentration_to_aqi.
Definition aqi_to_concentration := a2c.aqi_to_concentration.

(** The six supported pollutant names. *)
Definition pollutants : list string :=
  map fst c2a.aqi_conversion_table.

End aqi_formulation.

(* ================================================================= *)
(** ** [merge_daily_data.py]: alignment, daily maximum and category *)

Module merge_daily_data.
Import Py.
#[local] Open Scope float_scope.

(** *** Calendar days *)

(** A [tanggal] cell is a calendar day, counted in days from 1970-01-01. *)
Definition days_from_civil (y m d : Z) : Z :=
  (let y' := if m <=? 2 then y - 1 else y in
   let era := y' / 400 in
   let yoe := y' - era * 400 in
   let mp := (m + 9) mod 12 in
   let doy := (153 * mp + 2) / 5 + d - 1 in
   let doe := yoe * 365 + yoe / 4 - yoe / 100 + doy in
   era * 146097 + doe - 719468)%Z.

(** [pd.date_range(start=..., end=...)]: every day from [a] to [b]. *)
Definition date_range (a b : Z) : list Z :=
  map (fun i => (a + Z.of_nat i)%Z) (seq 0 (Z.to_nat (b - a + 1))).

(** [start='2010-01-01'] and [end='2021-12-31']. *)
Definition range_start : Z := days_from_civil 2010 1 1.
Definition range_end : Z := days_from_civil 2021 12 31.

(** [idx.difference(other)]: the elements of [idx] that are not in
    [other] ([idx] is a date range here, so sorted and without repeats). *)
Definition difference (idx other : list Z) : list Z :=
  filter (fun d => negb (existsb (Z.eqb d) other)) idx.

(** *** The combined raw table *)

(** A row of [combined_aqi_raw_data] once [max], [critical] and [categori]
    are dropped and [pm25] is moved: the day, the station and six numeric
    cells; a missing cell is NaN. *)
Record row : Type := mkrow {
  tanggal : Z;
  stasiun : string;
  pm25_ugm3 : float;
  pm10 : float;
  so2 : float;
  co : float;
  o3 : float;
  no2 : float
}.

(** The default [measurement_stations]. *)
Definition measurement_stations : list string :=
  [ "DKI1 (Bunderan HI)"; "DKI2 (Kelapa Gading)"; "DKI3 (Jagakarsa)";
    "DKI4 (Lubang Buaya)"; "DKI5 (Kebon Jeruk)" ]%string.

(** [replace('DKI5 (Kebon Jeruk) Jakarta Barat', 'DKI5 (Kebon Jeruk)')]. *)
Definition replace_station (r : row) : row :=
  if String.eqb (stasiun r) "DKI5 (Kebon Jeruk) Jakarta Barat"
  then mkrow (tanggal r) "DKI5 (Kebon Jeruk)" (pm25_ugm3 r) (pm10 r) (so2 r)
             (co r) (o3 r) (no2 r)
  else r.

(** [combined.loc[combined['stasiun'] == station, 'tanggal']]. *)
Definition dates_of (station : string) (tbl : list row) : list Z :=
  map tanggal (filter (fun r => String.eqb (stasiun r) station) tbl).

(** [pd.DataFrame({'tanggal': unavailable_date, 'stasiun': station})]; the
    numeric columns it lacks are NaN after the concatenation. *)
Definition unavailable_date_dataframe (station : string) (tbl : list row)
    : list row :=
  map (fun d => mkrow d station nan nan nan nan nan nan)
      (difference (date_range range_start range_end) (dates_of station tbl)).

(** The loop over the stations and [pd.concat(unavailable_dates)]. *)
Definition unavailable_dates (stations : list string) (tbl : list row)
    : list row :=
  flat_map (fun station => unavailable_date_dataframe station tbl) stations.

(** The PM2.5 cell is cleared outside the two stations that report it. *)
Definition clear_pm25 (r : row) : row :=
  if negb (String.eqb (stasiun r) "DKI1 (Bunderan HI)")
     && negb (String.eqb (stasiun r) "DKI3 (Jagakarsa)")
  then mkrow (tanggal r) (stasiun r) nan (pm10 r) (so2 r) (co r) (o3 r) (no2 r)
  else r.

(** The order of [sort_values(by=['stasiun', 'tanggal'])]. *)
Module RowOrder <: Orders.TotalLeBool.
Definition t : Type := row.
Definition leb (x y : row) : bool :=
  match String.compare (stasiun x) (stasiun y) with
  | Lt => true
  | Gt => false
  | Eq => (tanggal x <=? tanggal y)%Z
  end.
Theorem leb_total : forall x y, leb x y = true \/ leb y x = true.
Proof.
  intros x y. unfold leb. rewrite (String.compare_antisym (stasiun y)).
  destruct (String.compare (stasiun x) (stasiun y)); simpl; auto.
  destruct (Z.leb_spec (tanggal x) (tanggal y)); auto.
  right. apply Z.leb_le. lia.
Qed.
End RowOrder.

Module RowSort := Mergesort.Sort RowOrder.

(** [load_and_process_aqi_raw_data] from the station rename on: the rows
    read from the monthly files are given. *)
Definition load_and_process_aqi_raw_data (stations : list string)
    (combined_aqi_raw_data : list row) : list row :=
  let combined := map replace_station combined_aqi_raw_data in
  let combined := combined ++ unavailable_dates stations combined in
  let combined := map clear_pm25 combined in
  RowSort.sort combined.

(** The number of rows of a table for a station and a day. *)
Definition count_rows (station : string) (day : Z) (tbl : list row) : nat :=
  List.length (filter (fun r => String.eqb (stasiun r) station
                           && (tanggal r =? day)%Z) tbl).

(** *** The daily table: composite index and dominant pollutant *)

(** The six sub-index cells of a row of [raw_daily_aqi_data], the daily
    means; NaN where a day has no value. *)
Record sub_indices : Type := mksub {
  i_pm25 : float;
  i_pm10 : float;
  i_so2 : float;
  i_co : float;
  i_o3 : float;
  i_no2 : float
}.

(** [df[['pm25', 'pm10', 'so2', 'co', 'o3', 'no2']]] for one row. *)
Definition columns (r : sub_indices) : list (string * float) :=
  [ ("pm25", i_pm25 r); ("pm10", i_pm10 r); ("so2", i_so2 r);
    ("co", i_co r); ("o3", i_o3 r); ("no2", i_no2 r) ]%string.

(** [.max(axis=1)] on one row: the largest cell that is not NaN, and NaN
    when there is none. *)
Fixpoint max_axis1 (acc : float) (cells : list (string * float)) : float :=
  match cells with
  | [] => acc
  | (_, x) :: rest =>
      if isnan x then max_axis1 acc rest
      else if isnan acc then max_axis1 x rest
      else if acc <? x then max_axis1 x rest
      else max_axis1 acc rest
  end.

(** [.idxmax(axis=1)] on one row: the label of the first cell holding the
    largest value that is not NaN; for a row of NaN only, pandas 2 gives a
    missing label. *)
Fixpoint idxmax_axis1 (best : option (string * float))
    (cells : list (string * float)) : option string :=
  match cells with
  | [] => option_map fst best
  | (label, x) :: rest =>
      if isnan x then idxmax_axis1 best rest
      else match best with
           | None => idxmax_axis1 (Some (label, x)) rest
           | Some (_, b) =>
               if b <? x then idxmax_axis1 (Some (label, x)) rest
               else idxmax_axis1 best rest
           end
  end.

(** [.str.upper()] on the ASCII labels. *)
Definition upper_ascii (c : ascii) : ascii :=
  let n := nat_of_ascii c in
  if ((97 <=? n) && (n <=? 122))%nat then ascii_of_nat (n - 32) else c.
Fixpoint str_upper (s : string) : string :=
  match s with
  | EmptyString => EmptyString
  | String c s' => String (upper_ascii c) (str_upper s')
  end.

(** The [max] and [critical] columns of a row, as first computed. *)
Definition max_column (r : sub_indices) : float :=
  max_axis1 nan (columns r).
Definition critical_column (r : sub_indices) : option string :=
  option_map str_upper (idxmax_axis1 None (columns r)).

(** *** The category *)

Definition kategori_ispu : list (aqi_formulation.range * string) :=
  [ (aqi_formulation.mkrange 1 51, "BAIK");
    (aqi_formulation.mkrange 51 101, "SEDANG");
    (aqi_formulation.mkrange 101 201, "TIDAK SEHAT");
    (aqi_formulation.mkrange 201 301, "SANGAT TIDAK SEHAT") ]%string.

(** [m in key] for an integer [m]. *)
Definition in_range (key : aqi_formulation.range) (m : Z) : bool :=
  ((aqi_formulation.start key <=? m) && (m <? aqi_formulation.stop key))%Z.

(** The inner loop over [kategori_ispu] for one value of the integer [max]
    column: the label it appends, if it appends one. *)
Fixpoint category_loop (m : Z)
    (keys : list (aqi_formulation.range * string)) : option string :=
  match keys with
  | [] => None
  | (key, label) :: rest =>
      if (m =? 0)%Z then Some "TIDAK ADA DATA"%string
      else if in_range key m then Some label
      else if (301 <=? m)%Z then Some "BERBAHAYA"%string
      else category_loop m rest
  end.

(** The outer loop over the rows: the list [categori] it builds. *)
Fixpoint categori (maxs : list Z) : list string :=
  match maxs with
  | [] => []
  | m :: rest =>
      match category_loop m kategori_ispu with
      | Some label => label :: categori rest
      | None => categori rest
      end
  end.

(** [raw_daily_aqi_data['categori'] = pd.Series(categori)]: row [i] takes
    the [i]-th label, and is missing past the end of the list. *)
Definition categori_column (maxs : list Z) (i : nat) : option string :=
  nth_error (categori maxs) i.

End merge_daily_data.

(* ================================================================= *)
(** ** The specification's wording of the converter *)

Module Spec.
Import Py aqi_formulation.
#[local] Open Scope float_scope.

(** The definitions of this module follow the words of section 4.1 of the
    specification, not the code; the theorems below compare the two. *)

(** The entry with the smallest breakpoint of [b :: es], and the one with
    the highest. *)
Fixpoint smallest (b : float * range) (es : list (float * range))
    : float * range :=
  match es with
  | [] => b
  | e :: es' => smallest (if fst e <? fst b then e else b) es'
  end.
Fixpoint highest (b : float * range) (es : list (float * range))
    : float * range :=
  match es with
  | [] => b
  | e :: es' => highest (if fst b <? fst e then e else b) es'
  end.

(** "The smallest tabulated upper concentration breakpoint that is >= the
    input", and "the highest tabulated breakpoint" when the input exceeds
    every one of them. *)
Definition upper_entry (tbl : list (float * range)) (x : float)
    : option (float * range) :=
  match filter (fun e => x <=? fst e) tbl with
  | c :: cs => Some (smallest c cs)
  | [] =>
      match tbl with
      | e :: es => Some (highest e es)
      | [] => None
      end
  end.

(** "index = round(((Ia - Ib) / (Xa - Xb)) * (concentration - Xb) + Ib)". *)
Definition index_formula (xa xb : float) (ia ib : Z) (x : float) : res Z :=
  round (of_int (ia - ib) / (xa - xb) * (x - xb) + of_int ib).

(** The forward conversion as section 4.1 words it.  [first_Ib] is the
    index paired with concentration 0 when the input does not exceed the
    first breakpoint: the claim reads it as 0, the code takes the first
    sub-range's minimum.  A table without entries has no breakpoint to
    look up; each of the six tables has five. *)
Definition concentration_to_index (first_Ib : range -> Z) (p : string)
    (x : float) : res num :=
  tbl <- lookup p c2a.aqi_conversion_table ;;
  match tbl, upper_entry tbl x with
  | (x0, rng0) :: _, Some (xa, rng) =>
      let exceeds := x0 <? x in
      I <- index_formula xa (if exceeds then x0 else 0) (range_max rng)
             (if exceeds then range_max rng0 else first_Ib rng0) x ;;
      Ok (Int I)
  | _, _ => Raise KeyError
  end.

Definition claimed_first_Ib (_ : range) : Z := 0%Z.
Definition code_first_Ib (rng : range) : Z := range_min rng.

(** "That sub-range's lower concentration bound": the previous sub-range's
    upper concentration, or 0 for the first sub-range. *)
Definition lower_bound (tbl : list (range * float)) (i : nat) : float :=
  match i with
  | O => 0
  | S j => snd (nth j tbl (mkrange 0 0, 0))
  end.

(** The category of a composite index as sections 4.3 and 8 list it, in
    the priority order given there; no category is listed for an index
    below 0. *)
Definition category (m : Z) : option string :=
  (if m =? 0 then Some "TIDAK ADA DATA"
   else if (1 <=? m) && (m <=? 50) then Some "BAIK"
   else if (51 <=? m) && (m <=? 100) then Some "SEDANG"
   else if (101 <=? m) && (m <=? 200) then Some "TIDAK SEHAT"
   else if (201 <=? m) && (m <=? 300) then Some "SANGAT TIDAK SEHAT"
   else if 301 <=? m then Some "BERBAHAYA"
   else None)%Z%string.

End Spec.

(* ================================================================= *)
(** ** Checks on a breakpoint table and keys for the float order *)

Module Wf.
Import Py aqi_formulation.
#[local] Open Scope float_scope.

(** The breakpoints increase strictly. *)
Fixpoint sorted_keys (tbl : list (float * range)) : bool :=
  match tbl with
  | [] => true
  | e :: rest => forallb (fun e' => fst e <? fst e') rest && sorted_keys rest
  end.

(** No denominator [Xa - Xb] that the loop can set is zero: [Xb] is 0 or
    the first breakpoint, and then [Xa] is a later one. *)
Definition denominators (tbl : list (float * range)) : bool :=
  forallb (fun e => negb (fst e - 0 =? 0)) tbl
  && match tbl with
     | [] => false
     | e0 :: rest =>
         negb (isnan (fst e0))
         && forallb (fun e => negb (fst e - fst e0 =? 0)) rest
         && match rest with [] => false | _ :: _ => true end
     end.

Definition table_ok (tbl : list (float * range)) : bool :=
  sorted_keys tbl && denominators tbl.

(** A key whose lexicographic order is the order of the floats that are
    not NaN: the sign class, then exponent and mantissa. *)
Definition rank (x : spec_float) : Z * (Z * Z) :=
  match x with
  | S754_nan => (0, (0, 0))
  | S754_zero _ => (0, (0, 0))
  | S754_infinity true => (-2, (0, 0))
  | S754_infinity false => (2, (0, 0))
  | S754_finite true m e => (-1, (- e, - Zpos m))
  | S754_finite false m e => (1, (e, Zpos m))
  end%Z.

Definition lex3 (p q : Z * (Z * Z)) : comparison :=
  match fst p ?= fst q with
  | Eq => match fst (snd p) ?= fst (snd q) with
          | Eq => snd (snd p) ?= snd (snd q)
          | c => c
          end
  | c => c
  end%Z.

Definition key (x : float) : Z * (Z * Z) := rank (Prim2SF x).

(** A finite float that is not a zero. *)
Definition finite_nonzero (x : float) : bool :=
  match Prim2SF x with
  | S754_finite _ _ _ => true
  | _ => false
  end.

(** The result is a float between [lo] and [hi]. *)
Definition within (lo hi : float) (r : res num) : bool :=
  match r with
  | Ok (Float c) => (lo <=? c) && (c <=? hi)
  | _ => false
  end.

(** Every index of the [i]-th range of [tbl] is converted to a
    concentration between the bounds of that class. *)
Definition reverse_in_bounds (p : string) (tbl : list (range * float))
    (i : nat) : bool :=
  match nth_error tbl i with
  | Some (rng, upper) =>
      forallb (fun k => finite_nonzero (of_int k)
                        && within (Spec.lower_bound tbl i) upper
                             (aqi_to_concentration p (of_int k)))
              (range_elems rng)
  | None => true
  end.

(** The cell the two row operations of the daily table settle on, with
    its label and its value. *)
Fixpoint argmax (best : option (string * float))
    (cells : list (string * float)) : option (string * float) :=
  match cells with
  | [] => best
  | (label, x) :: rest =>
      if isnan x then argmax best rest
      else match best with
           | None => argmax (Some (label, x)) rest
           | Some (_, b) =>
               if b <? x then argmax (Some (label, x)) rest
               else argmax best rest
           end
  end.

End Wf.

(* ================================================================= *)
(** ** Checks on the two conversions over whole ranges *)

Module Checks.
Import Py aqi_formulation.
#[local] Open Scope float_scope.

(** The reverse conversion of index [k] succeeds with a concentration
    above 0 and at most [hi]. *)
Definition reverse_positive (p : string) (hi : float) (k : Z) : bool :=
  match aqi_to_concentration p (of_int k) with
  | Ok (Float c) => (0 <? c) && (c <=? hi)
  | _ => false
  end.

(** Every index of every range of the table is a finite float that is not
    above the last range's maximum, and is converted to a concentration in
    (0, last breakpoint]. *)
Definition reverse_members (p : string) (tbl : list (range * float)) : bool :=
  forallb (fun e =>
    forallb (fun k =>
      Wf.finite_nonzero (of_int k)
      && negb (of_int (range_max (fst (a2c.last_entry tbl))) <? of_int k)
      && reverse_positive p (snd (a2c.last_entry tbl)) k)
      (range_elems (fst e))) tbl.

(** The table has a range above the first one, and the last range's
    maximum is above the first range's. *)
Definition reverse_extrapolates (tbl : list (range * float)) : bool :=
  (of_int (range_max (fst (a2c.first_entry tbl)))
   <? of_int (range_max (fst (a2c.last_entry tbl))))
  && negb (of_int (range_max (fst (a2c.last_entry tbl))
                   - range_max (fst (a2c.first_entry tbl))) =? 0)
  && match tbl with [] => false | _ :: _ => true end.

(** Index [k] converted to a concentration and back gives [j]. *)
Definition round_trip (p : string) (k j : Z) : bool :=
  match aqi_to_concentration p (of_int k) with
  | Ok (Float c) =>
      match concentration_to_aqi p c with
      | Ok (Int i) => (i =? j)%Z
      | _ => false
      end
  | _ => false
  end.

End Checks.

(* ================================================================= *)
(** ** [merge_daily_data.py]: [merge_pm25_aqi_raw_data] *)

Module merge_pm25.
Import Py aqi_formulation merge_daily_data.
#[local] Open Scope float_scope.

(** A frame of [load_and_process_pm25_raw_data] as the merge reads it: the
    day and the [pm25(ug/m3)] cell of each row.  The frame comes from a
    daily group-by, so a day occurs once ([unique_days] below). *)
Definition frame : Type := list (Z * float).

(** [pm25_raw_data] is one frame or a list of frames
    ([isinstance(pm25_raw_data, pd.DataFrame)]). *)
Inductive pm25_input : Type :=
| One (f : frame)
| Many (fs : list frame).

(** The frames the merge reads. *)
Definition frames (pm25_raw_data : pm25_input) : list frame :=
  match pm25_raw_data with
  | One f => [f]
  | Many fs => fs
  end.

(** A frame is indexed by its days; [update] reindexes it on the days of
    the table, which pandas does for an index without repeated labels. *)
Definition unique_days (f : frame) : Prop := NoDup (map fst f).

(** [other.reindex(self.index)] at one row: the frame's cell for the row's
    day, NaN when the frame has no such day. *)
Fixpoint reindex (f : frame) (day : Z) : float :=
  match f with
  | [] => nan
  | (d, v) :: rest => if (d =? day)%Z then v else reindex rest day
  end.

(** [aqi_raw_data.update(frame[['pm25(ug/m3)']], overwrite=True,
    filter_func=lambda _: aqi_raw_data['stasiun'] == station)]: the cell
    is kept where [~filter | isna(that)] holds and takes the frame's value
    elsewhere. *)
Definition update (f : frame) (station : string) (tbl : list row) : list row :=
  map (fun r =>
         let that := reindex f (tanggal r) in
         if negb (String.eqb (stasiun r) station) || isnan that then r
         else mkrow (tanggal r) (stasiun r) that (pm10 r) (so2 r) (co r)
                    (o3 r) (no2 r))
      tbl.

(** The first branch: the one frame updates every listed station. *)
Definition update_each (f : frame) (stations : list string) (tbl : list row)
    : list row :=
  fold_left (fun t s => update f s t) stations tbl.

(** The second branch: frame [i] updates station
    [measurement_stations[i]]; a frame without a station is an
    [IndexError], here [None]. *)
Fixpoint update_many (fs : list frame) (stations : list string)
    (tbl : list row) : option (list row) :=
  match fs with
  | [] => Some tbl
  | f :: fs' =>
      match stations with
      | [] => None
      | s :: stations' => update_many fs' stations' (update f s tbl)
      end
  end.

(** The result of the merge: the table, an exception of a conversion, or
    the [IndexError] of the station list. *)
Inductive outcome (A : Type) : Type :=
| Done (a : A)
| Failed (e : exn)
| IndexError.
Arguments Done {A} a.
Arguments Failed {A} e.
Arguments IndexError {A}.

(** A row of the merged table: the day, the station, and the
    concentration and the index of each pollutant. *)
Record merged_row : Type := mkmerged {
  m_tanggal : Z;
  m_stasiun : string;
  m_pm25_ugm3 : float;
  m_pm25 : float;
  m_pm10_ugm3 : float;
  m_pm10 : float;
  m_so2_ugm3 : float;
  m_so2 : float;
  m_co_ugm3 : float;
  m_co : float;
  m_o3_ugm3 : float;
  m_o3 : float;
  m_no2_ugm3 : float;
  m_no2 : float
}.

(** [pd.to_numeric] on a cell a conversion returned. *)
Definition to_float (n : num) : float :=
  match n with
  | Int z => of_int z
  | Float f => f
  end.

(** [[f(x) for x in column]]: the calls are made in order and the first
    exception ends the comprehension. *)
Fixpoint comprehension {A B : Type} (f : A -> res B) (l : list A)
    : res (list B) :=
  match l with
  | [] => Ok []
  | a :: l' =>
      b <- f a ;;
      bs <- comprehension f l' ;;
      Ok (b :: bs)
  end.

(** The six new columns joined to the table, row by row. *)
Fixpoint assemble (tbl : list row) (c25 c10 cso2 cco co3 cno2 : list num)
    : list merged_row :=
  match tbl, c25, c10, cso2, cco, co3, cno2 with
  | r :: tbl', a :: c25', b :: c10', c :: cso2', d :: cco', e :: co3',
    g :: cno2' =>
      mkmerged (tanggal r) (stasiun r)
               (pm25_ugm3 r) (to_float a)
               (to_float b) (pm10 r)
               (to_float c) (so2 r)
               (to_float d) (co r)
               (to_float e) (o3 r)
               (to_float g) (no2 r)
      :: assemble tbl' c25' c10' cso2' cco' co3' cno2'
  | _, _, _, _, _, _, _ => []
  end.

(** The six comprehensions, in the order of the source, then the table. *)
Definition derive_columns (tbl : list row) : res (list merged_row) :=
  c25 <- comprehension (concentration_to_aqi "pm25") (map pm25_ugm3 tbl) ;;
  c10 <- comprehension (aqi_to_concentration "pm10") (map pm10 tbl) ;;
  cso2 <- comprehension (aqi_to_concentration "so2") (map so2 tbl) ;;
  cco <- comprehension (aqi_to_concentration "co") (map co tbl) ;;
  co3 <- comprehension (aqi_to_concentration "o3") (map o3 tbl) ;;
  cno2 <- comprehension (aqi_to_concentration "no2") (map no2 tbl) ;;
  Ok (assemble tbl c25 c10 cso2 cco co3 cno2).

(** The [if isinstance(...)] with its two loops of updates. *)
Definition updated (pm25_raw_data : pm25_input)
    (measurement_stations : list string) (aqi_raw_data : list row)
    : option (list row) :=
  match pm25_raw_data with
  | One f => Some (update_each f measurement_stations aqi_raw_data)
  | Many fs => update_many fs measurement_stations aqi_raw_data
  end.

Definition merge_pm25_aqi_raw_data (pm25_raw_data : pm25_input)
    (aqi_raw_data : list row) (measurement_stations : list string)
    : outcome (list merged_row) :=
  match updated pm25_raw_data measurement_stations aqi_raw_data with
  | None => IndexError
  | Some tbl =>
      match derive_columns (RowSort.sort tbl) with
      | Ok out => Done out
      | Raise e => Failed e
      end
  end.

(** The default [measurement_stations] of the merge. *)
Definition pm25_stations : list string :=
  [ "DKI1 (Bunderan HI)"; "DKI3 (Jagakarsa)" ]%string.

(** One row read across: the six conversions of its cells. *)
Definition derive (r : row) : res merged_row :=
  a <- concentration_to_aqi "pm25" (pm25_ugm3 r) ;;
  b <- aqi_to_concentration "pm10" (pm10 r) ;;
  c <- aqi_to_concentration "so2" (so2 r) ;;
  d <- aqi_to_concentration "co" (co r) ;;
  e <- aqi_to_concentration "o3" (o3 r) ;;
  g <- aqi_to_concentration "no2" (no2 r) ;;
  Ok (mkmerged (tanggal r) (stasiun r)
               (pm25_ugm3 r) (to_float a)
               (to_float b) (pm10 r)
               (to_float c) (so2 r)
               (to_float d) (co r)
               (to_float e) (o3 r)
               (to_float g) (no2 r)).

End merge_pm25.

(* ================================================================= *)
(** ** The numpy steps of [merge_daily_data.py] and the PM2.5 loader *)

Module Np.
Import Py.
#[local] Open Scope float_scope.

(** [round(series)], that is [np.round] to 0 decimals: the nearest whole
    number, ties to even, as a float that keeps the sign; infinities and
    NaN are left as they are. *)
Definition round0 (x : float) : float :=
  match Prim2SF x with
  | S754_finite s m e =>
      match round_half_even (Zpos m) e with
      | Zpos n => of_int (cond_Zopp s (Zpos n))
      | _ => SF2Prim (S754_zero s)
      end
  | _ => x
  end.

(** [fillna(value=0)] on one cell. *)
Definition fillna0 (x : float) : float := if isnan x then 0 else x.

(** [astype(int)] on one cell: the value cut towards zero; the cast is
    not defined on NaN, on the infinities and outside the 64-bit range,
    here [None]. *)
Definition astype_int (x : float) : option Z :=
  match Prim2SF x with
  | S754_zero _ => Some 0%Z
  | S754_finite s m e =>
      let t := match e with
               | Zneg p => (Zpos m / Z.pow_pos 2 p)%Z
               | _ => (Zpos m * 2 ^ e)%Z
               end in
      let z := cond_Zopp s t in
      if ((- 2 ^ 63 <=? z) && (z <? 2 ^ 63))%Z then Some z else None
  | _ => None
  end.

End Np.

Module load_pm25.
Import Py merge_pm25.
#[local] Open Scope float_scope.

(** [load_and_process_pm25_raw_data] for one city, from the daily means
    of the valid readings on: the days whose mean is not above 0 (or is
    missing) are removed, and the means that stay are rounded. *)
Definition process_city (daily : frame) : frame :=
  map (fun dc => (fst dc, Np.round0 (snd dc)))
      (filter (fun dc => 0 <? snd dc) daily).

End load_pm25.

Module daily_final.
Import Py merge_daily_data.

(** The [max] column of a row once filled, rounded and cast to int. *)
Definition max_final (r : sub_indices) : option Z :=
  Np.astype_int (Np.round0 (Np.fillna0 (max_column r))).

(** The label the inner loop over [kategori_ispu] appends for the row. *)
Definition category_of (r : sub_indices) : option string :=
  match max_final r with
  | Some m => category_loop m kategori_ispu
  | None => None
  end.

End daily_final.

(* ================================================================= *)
(** * Properties *)

(** ** The order of binary64 values *)

Module FloatOrder.

Import Wf.

Ltac cmp_cases :=
  repeat match goal with
  | |- context [Z.compare ?a ?b] => destruct (Z.compare_spec a b)
  | |- context [Pos.compare ?a ?b] => destruct (Pos.compare_spec a b)
  | H : context [Z.compare ?a ?b] |- _ => destruct (Z.compare_spec a b)
  | H : context [Pos.compare ?a ?b] |- _ => destruct (Pos.compare_spec a b)
  end.

Lemma SFcompare_rank a b c :
  SFcompare a b = Some c -> lex3 (rank a) (rank b) = c.
Proof.
  unfold SFcompare, lex3.
  destruct a as [sa|sa| |sa ma ea], b as [sb|sb| |sb mb eb];
    try destruct sa; try destruct sb; simpl; intros H; inversion H; subst; clear H;
    try reflexivity;
    change (Pos.compare_cont Eq ma mb) with (Pos.compare ma mb);
    cmp_cases; simpl; try reflexivity; try lia.
Qed.

Lemma SFcompare_defined a b :
  a <> S754_nan -> b <> S754_nan -> SFcompare a b = Some (lex3 (rank a) (rank b)).
Proof.
  intros Ha Hb.
  destruct (SFcompare a b) as [c|] eqn:E.
  - now rewrite (SFcompare_rank _ _ _ E).
  - destruct a, b; simpl in E; congruence.
Qed.

Lemma isnan_false x : PrimFloat.is_nan x = false <-> Prim2SF x <> S754_nan.
Proof.
  unfold PrimFloat.is_nan. rewrite eqb_spec. unfold SFeqb.
  destruct (Prim2SF x) as [s|s| |s m e] eqn:E; simpl.
  - split; [discriminate | reflexivity].
  - destruct s; split; try discriminate; reflexivity.
  - split; [discriminate | congruence].
  - split; [discriminate | intros _].
    destruct s; rewrite Z.compare_refl;
      change (Pos.compare_cont Eq m m) with (Pos.compare m m);
      rewrite Pos.compare_refl; reflexivity.
Qed.

Section Compare.
#[local] Open Scope float_scope.
Variables a b : float.
Hypothesis Ha : PrimFloat.is_nan a = false.
Hypothesis Hb : PrimFloat.is_nan b = false.

Lemma compare_key :
  SFcompare (Prim2SF a) (Prim2SF b) = Some (lex3 (key a) (key b)).
Proof. apply SFcompare_defined; now apply isnan_false. Qed.

Lemma ltb_key : (a <? b) = match lex3 (key a) (key b) with Lt => true | _ => false end.
Proof. rewrite ltb_spec. unfold SFltb. now rewrite compare_key. Qed.

Lemma leb_key : (a <=? b) = match lex3 (key a) (key b) with Gt => false | _ => true end.
Proof.
  rewrite leb_spec. unfold SFleb. rewrite compare_key.
  now destruct (lex3 (key a) (key b)).
Qed.

Lemma eqb_key : (a =? b) = match lex3 (key a) (key b) with Eq => true | _ => false end.
Proof. rewrite eqb_spec. unfold SFeqb. now rewrite compare_key. Qed.

End Compare.

Section Facts.
#[local] Open Scope float_scope.

Lemma ltb_not_nan a b : (a <? b) = true ->
  PrimFloat.is_nan a = false /\ PrimFloat.is_nan b = false.
Proof.
  rewrite ltb_spec. unfold SFltb. intros H. split; apply isnan_false; intros E;
    rewrite E in H; simpl in H; try discriminate.
  destruct (Prim2SF a); discriminate.
Qed.

Lemma leb_not_nan a b : (a <=? b) = true ->
  PrimFloat.is_nan a = false /\ PrimFloat.is_nan b = false.
Proof.
  rewrite leb_spec. unfold SFleb. intros H. split; apply isnan_false; intros E;
    rewrite E in H; simpl in H; try discriminate.
  destruct (Prim2SF a); discriminate.
Qed.

Lemma eqb_not_nan a b : (a =? b) = true ->
  PrimFloat.is_nan a = false /\ PrimFloat.is_nan b = false.
Proof.
  rewrite eqb_spec. unfold SFeqb. intros H. split; apply isnan_false; intros E;
    rewrite E in H; simpl in H; try discriminate.
  destruct (Prim2SF a); discriminate.
Qed.

(** The order facts below are decided on the keys, as integers. *)
Ltac key_order :=
  unfold lex3 in *;
  repeat match goal with
  | |- context [key ?x] => destruct (key x) as [? [? ?]]
  | H : context [key ?x] |- _ => destruct (key x) as [? [? ?]]
  end; simpl in *; cmp_cases; try congruence; try lia.

Lemma ltb_leb a b : (a <? b) = true -> (a <=? b) = true.
Proof.
  intros H. destruct (ltb_not_nan _ _ H) as [Ha Hb].
  rewrite (ltb_key _ _ Ha Hb) in H. rewrite (leb_key _ _ Ha Hb).
  now destruct (lex3 (key a) (key b)).
Qed.

Lemma ltb_asym a b : (a <? b) = true -> (b <? a) = false.
Proof.
  intros H. destruct (ltb_not_nan _ _ H) as [Ha Hb].
  rewrite (ltb_key _ _ Ha Hb) in H. rewrite (ltb_key _ _ Hb Ha).
  key_order.
Qed.

Lemma ltb_not_leb a b : (a <? b) = true -> (b <=? a) = false.
Proof.
  intros H. destruct (ltb_not_nan _ _ H) as [Ha Hb].
  rewrite (ltb_key _ _ Ha Hb) in H. rewrite (leb_key _ _ Hb Ha).
  key_order.
Qed.

Lemma leb_not_ltb a b : (a <=? b) = true -> (b <? a) = false.
Proof.
  intros H. destruct (leb_not_nan _ _ H) as [Ha Hb].
  rewrite (leb_key _ _ Ha Hb) in H. rewrite (ltb_key _ _ Hb Ha).
  key_order.
Qed.

Lemma not_leb_ltb a b :
  PrimFloat.is_nan a = false -> PrimFloat.is_nan b = false ->
  (a <=? b) = false -> (b <? a) = true.
Proof.
  intros Ha Hb. rewrite (leb_key _ _ Ha Hb), (ltb_key _ _ Hb Ha). key_order.
Qed.

Lemma not_ltb_leb a b :
  PrimFloat.is_nan a = false -> PrimFloat.is_nan b = false ->
  (a <? b) = false -> (b <=? a) = true.
Proof.
  intros Ha Hb. rewrite (ltb_key _ _ Ha Hb), (leb_key _ _ Hb Ha). key_order.
Qed.

Lemma ltb_trans a b c : (a <? b) = true -> (b <? c) = true -> (a <? c) = true.
Proof.
  intros H1 H2. destruct (ltb_not_nan _ _ H1) as [Ha Hb].
  destruct (ltb_not_nan _ _ H2) as [_ Hc].
  rewrite (ltb_key _ _ Ha Hb) in H1. rewrite (ltb_key _ _ Hb Hc) in H2.
  rewrite (ltb_key _ _ Ha Hc). key_order.
Qed.

Lemma leb_trans a b c : (a <=? b) = true -> (b <=? c) = true -> (a <=? c) = true.
Proof.
  intros H1 H2. destruct (leb_not_nan _ _ H1) as [Ha Hb].
  destruct (leb_not_nan _ _ H2) as [_ Hc].
  rewrite (leb_key _ _ Ha Hb) in H1. rewrite (leb_key _ _ Hb Hc) in H2.
  rewrite (leb_key _ _ Ha Hc). key_order.
Qed.

Lemma leb_ltb_trans a b c : (a <=? b) = true -> (b <? c) = true -> (a <? c) = true.
Proof.
  intros H1 H2. destruct (leb_not_nan _ _ H1) as [Ha Hb].
  destruct (ltb_not_nan _ _ H2) as [_ Hc].
  rewrite (leb_key _ _ Ha Hb) in H1. rewrite (ltb_key _ _ Hb Hc) in H2.
  rewrite (ltb_key _ _ Ha Hc). key_order.
Qed.

Lemma ltb_leb_trans a b c : (a <? b) = true -> (b <=? c) = true -> (a <? c) = true.
Proof.
  intros H1 H2. destruct (ltb_not_nan _ _ H1) as [Ha Hb].
  destruct (leb_not_nan _ _ H2) as [_ Hc].
  rewrite (ltb_key _ _ Ha Hb) in H1. rewrite (leb_key _ _ Hb Hc) in H2.
  rewrite (ltb_key _ _ Ha Hc). key_order.
Qed.

Lemma leb_refl a : PrimFloat.is_nan a = false -> (a <=? a) = true.
Proof. intros Ha. rewrite (leb_key _ _ Ha Ha). key_order. Qed.

Lemma eqb_refl a : PrimFloat.is_nan a = false -> (a =? a) = true.
Proof. intros Ha. rewrite (eqb_key _ _ Ha Ha). key_order. Qed.

End Facts.

End FloatOrder.

(** ** The forward conversion against the specification's wording *)

Section ForwardLoop.
Import Py aqi_formulation Spec Wf FloatOrder.
#[local] Open Scope float_scope.

Ltac split_andb :=
  repeat match goal with
  | H : (_ && _) = true |- _ => apply andb_true_iff in H; destruct H
  end.

Lemma smallest_head c cs :
  forallb (fun e' => fst c <? fst e') cs = true -> smallest c cs = c.
Proof.
  induction cs as [|e cs IH]; simpl; intros H; [reflexivity|].
  apply andb_true_iff in H. destruct H as [Hce Hcs].
  rewrite (ltb_asym _ _ Hce). now apply IH.
Qed.

Lemma highest_last c cs d :
  sorted_keys (c :: cs) = true -> highest c cs = last (c :: cs) d.
Proof.
  revert c. induction cs as [|e cs IH]; intros c H; [reflexivity|].
  simpl in H. split_andb.
  change (highest c (e :: cs)) with (highest (if fst c <? fst e then e else c) cs).
  match goal with Hce : (fst c <? fst e) = true |- _ => rewrite Hce end.
  rewrite IH.
  - reflexivity.
  - simpl. apply andb_true_iff. split; assumption.
Qed.

Lemma forallb_filter {A} (f g : A -> bool) l :
  forallb f l = true -> forallb f (filter g l) = true.
Proof.
  induction l as [|a l IH]; simpl; [reflexivity|].
  intros H. apply andb_true_iff in H. destruct H as [Ha Hl].
  destruct (g a); simpl; [rewrite Ha|]; auto.
Qed.

Lemma sorted_filter g tbl :
  sorted_keys tbl = true -> sorted_keys (filter g tbl) = true.
Proof.
  induction tbl as [|e tbl IH]; simpl; [reflexivity|].
  intros H. apply andb_true_iff in H. destruct H as [He Ht].
  destruct (g e); simpl; auto.
  rewrite (forallb_filter _ g _ He). auto.
Qed.

Lemma last_cons_in {A} (a : A) l d : In (last (a :: l) d) (a :: l).
Proof.
  revert a. induction l as [|b l IH]; intros a; [now left|].
  right. apply IH.
Qed.

(** Every breakpoint of a sorted table is the last one or below it. *)
Lemma sorted_below_last tbl d e :
  sorted_keys tbl = true -> In e tbl ->
  e = last tbl d \/ (fst e <? fst (last tbl d)) = true.
Proof.
  induction tbl as [|a tbl IH]; intros Hs Hin; [contradiction|].
  simpl in Hs. apply andb_true_iff in Hs. destruct Hs as [Ha Ht].
  destruct tbl as [|b tbl]; [destruct Hin as [<-|[]]; now left|].
  change (last (a :: b :: tbl) d) with (last (b :: tbl) d).
  destruct Hin as [E|Hin].
  - subst e. right. rewrite forallb_forall in Ha. apply Ha. apply last_cons_in.
  - now apply IH.
Qed.

Variable tbl : list (float * range).
Variable Xx : float.
Hypothesis Hok : table_ok tbl = true.
Hypothesis Hnan : isnan Xx = false.

(** While [Xx] is not above the last breakpoint the loop is a search for
    the first breakpoint at or above [Xx]. *)
Lemma loop_search keys :
  (fst (c2a.last_entry tbl) <? Xx) = false ->
  c2a.loop tbl Xx keys =
  match filter (fun e => Xx <=? fst e) keys with
  | (k, rng) :: _ =>
      mkanchors k (c2a.lower_Xb tbl Xx) (range_max rng) (c2a.lower_Ib tbl Xx)
  | [] => anchors0
  end.
Proof.
  intros HL. induction keys as [|[k rng] keys IH]; simpl; [reflexivity|].
  destruct (Xx <=? k); [reflexivity|]. now rewrite HL.
Qed.

(** The loop sets the upper anchor the specification words, and the lower
    one from the first class. *)
Lemma loop_upper_entry :
  exists xa rng,
    upper_entry tbl Xx = Some (xa, rng) /\
    In (xa, rng) tbl /\
    ((Xx <=? xa) = true \/ (xa, rng) = c2a.last_entry tbl) /\
    c2a.loop tbl Xx tbl =
      mkanchors xa (c2a.lower_Xb tbl Xx) (range_max rng) (c2a.lower_Ib tbl Xx).
Proof.
  unfold table_ok in Hok. apply andb_true_iff in Hok. destruct Hok as [Hs Hd].
  unfold denominators in Hd. apply andb_true_iff in Hd. destruct Hd as [_ Hd].
  destruct tbl as [|[k0 r0] rest] eqn:Et; [discriminate|]. rewrite <- Et in *.
  assert (Hlast_in : In (c2a.last_entry tbl) tbl).
  { unfold c2a.last_entry. rewrite Et. apply last_cons_in. }
  assert (Hlast_nan : isnan (fst (c2a.last_entry tbl)) = false).
  { destruct (sorted_below_last tbl (0, mkrange 0 0) (k0, r0) Hs) as [E|E].
    - rewrite Et. now left.
    - unfold c2a.last_entry. rewrite <- E. simpl.
      split_andb. now apply negb_true_iff.
    - now destruct (ltb_not_nan _ _ E). }
  destruct (fst (c2a.last_entry tbl) <? Xx) eqn:HL.
  - (* above every breakpoint: the highest one *)
    assert (Hall : forall e, In e tbl -> (Xx <=? fst e) = false).
    { intros e He. apply ltb_not_leb.
      destruct (sorted_below_last tbl (0, mkrange 0 0) e Hs He) as [E|E].
      - now rewrite E.
      - eapply ltb_trans; eauto. }
    destruct (c2a.last_entry tbl) as [xl rl] eqn:El.
    exists xl, rl. repeat split; auto.
    + unfold upper_entry. replace (filter (fun e => Xx <=? fst e) tbl) with (@nil (float * range)).
      * rewrite Et. rewrite (highest_last _ _ (0, mkrange 0 0)) by now rewrite <- Et.
        rewrite <- Et. exact (f_equal Some El).
      * symmetry. clear -Hall. induction tbl as [|a l IH]; [reflexivity|].
        simpl. rewrite (Hall a (or_introl eq_refl)). apply IH.
        intros e He. apply Hall. now right.
    + replace (c2a.loop tbl Xx tbl) with (c2a.loop tbl Xx ((k0, r0) :: rest))
        by now rewrite Et.
      simpl. change k0 with (fst (k0, r0)) at 1.
      rewrite (Hall (k0, r0)) by (rewrite Et; now left).
      rewrite El. simpl in HL |- *. now rewrite HL.
  - (* at or below the last breakpoint: the first one at or above *)
    rewrite (loop_search tbl HL). unfold upper_entry.
    pose proof (sorted_filter (fun e => Xx <=? fst e) tbl Hs) as Hsf.
    destruct (filter (fun e => Xx <=? fst e) tbl) as [|[k rng] cs] eqn:Ef.
    + exfalso.
      assert (Hin : In (c2a.last_entry tbl) (filter (fun e => Xx <=? fst e) tbl)).
      { apply filter_In. split; [assumption|]. now apply not_ltb_leb. }
      now rewrite Ef in Hin.
    + assert (Hin : In (k, rng) (filter (fun e => Xx <=? fst e) tbl))
        by (rewrite Ef; now left).
      apply filter_In in Hin. destruct Hin as [Hin Hle]. simpl in Hle.
      simpl in Hsf. apply andb_true_iff in Hsf. destruct Hsf as [Hk _].
      exists k, rng. rewrite (smallest_head (k, rng) cs Hk). auto.
Qed.

(** The denominator the loop sets is not zero. *)
Lemma loop_denominator xa rng :
  In (xa, rng) tbl ->
  (Xx <=? xa) = true \/ (xa, rng) = c2a.last_entry tbl ->
  (xa - c2a.lower_Xb tbl Xx =? 0) = false.
Proof.
  intros Hin Hup.
  unfold table_ok in Hok. apply andb_true_iff in Hok. destruct Hok as [Hs Hd].
  unfold denominators in Hd. apply andb_true_iff in Hd. destruct Hd as [Hd0 Hd].
  destruct tbl as [|[k0 r0] rest] eqn:Et; [discriminate|].
  apply andb_true_iff in Hd. destruct Hd as [Hd Hne].
  apply andb_true_iff in Hd. destruct Hd as [_ Hd1].
  rewrite forallb_forall in Hd0, Hd1.
  unfold c2a.lower_Xb, c2a.first_entry. simpl.
  destruct (k0 <? Xx) eqn:Hx.
  - assert (Hrest : In (xa, rng) rest).
    { destruct Hin as [E|Hin]; [|assumption]. inversion E; subst xa rng.
      destruct Hup as [Hle|E'].
      - now rewrite (ltb_not_leb _ _ Hx) in Hle.
      - rewrite E'. unfold c2a.last_entry.
        destruct rest as [|b rest']; [discriminate|].
        change (last ((k0, r0) :: b :: rest') (0, mkrange 0 0))
          with (last (b :: rest') (0, mkrange 0 0)).
        apply last_cons_in. }
    apply negb_true_iff. apply (Hd1 _ Hrest).
  - apply negb_true_iff. apply (Hd0 _ Hin).
Qed.

(** The interpolation of the code is the specification's formula on those
    anchors. *)
Lemma interpolate_formula :
  exists x0 rng0 rest xa rng,
    tbl = (x0, rng0) :: rest /\
    upper_entry tbl Xx = Some (xa, rng) /\
    c2a.interpolate (c2a.loop tbl Xx tbl) Xx =
      index_formula xa (if x0 <? Xx then x0 else 0) (range_max rng)
        (if x0 <? Xx then range_max rng0 else range_min rng0) Xx.
Proof.
  destruct loop_upper_entry as (xa & rng & Hu & Hin & Hup & Hloop).
  pose proof (loop_denominator xa rng Hin Hup) as Hden.
  destruct tbl as [|[x0 rng0] rest] eqn:Et; [contradiction|].
  exists x0, rng0, rest, xa, rng. repeat split; auto.
  rewrite Hloop. unfold c2a.interpolate, Py.div, index_formula. simpl.
  rewrite Hden. simpl.
  unfold c2a.lower_Xb, c2a.lower_Ib, c2a.first_entry. simpl.
  destruct (x0 <? Xx); reflexivity.
Qed.

End ForwardLoop.

Section Converter.
Import Py aqi_formulation Spec Wf FloatOrder.
#[local] Open Scope float_scope.

Lemma supported_forward p :
  In p pollutants ->
  exists tbl, lookup p c2a.aqi_conversion_table = Ok tbl /\ table_ok tbl = true.
Proof.
  intros H. simpl in H.
  repeat (destruct H as [<-|H]; [eexists; split; [reflexivity|vm_compute; reflexivity]|]).
  contradiction.
Qed.

Lemma lookup_in {A} p (d : list (string * A)) v :
  lookup p d = Ok v -> In (p, v) d.
Proof.
  induction d as [|[k w] d IH]; simpl; [discriminate|].
  destruct (String.eqb_spec p k) as [->|_].
  - intros E. inversion E. now left.
  - intros E. right. now apply IH.
Qed.

(** Claim C1, as amended.  For every supported pollutant and every
    concentration that is neither NaN nor zero, [concentration_to_aqi]
    returns [round(((Ia - Ib) / (Xa - Xb)) * (x - Xb) + Ib)] with [Xa] the
    smallest tabulated breakpoint at or above [x] (the highest one when [x]
    exceeds them all), [Ia] the maximum index of that breakpoint's range,
    [Xb] 0 when [x] does not exceed the first breakpoint and the first
    breakpoint otherwise, and [Ib] the first range's minimum index, 1, when
    [x] does not exceed the first breakpoint and its maximum index
    otherwise.  No division by zero occurs on the way. *)
Theorem forward_matches_section_4_1 p x :
  In p pollutants -> isnan x = false -> (x =? 0) = false ->
  concentration_to_aqi p x = Spec.concentration_to_index Spec.code_first_Ib p x.
Proof.
  intros Hp Hnan Hz.
  destruct (supported_forward p Hp) as (tbl & Hl & Hok).
  unfold concentration_to_aqi, c2a.concentration_to_aqi, Spec.concentration_to_index.
  rewrite Hl. cbn [bind]. rewrite Hz, Hnan. cbn [negb andb].
  destruct (interpolate_formula tbl x Hok Hnan)
    as (x0 & rng0 & rest & xa & rng & Et & Hu & Hi).
  rewrite Hi. subst tbl. cbv iota beta. rewrite Hu. reflexivity.
Qed.

Lemma forward_matches_section_4_1_witness :
  In "pm25"%string pollutants /\ isnan 10 = false /\ (10 =? 0) = false /\
  concentration_to_aqi "pm25" 10
  = Spec.concentration_to_index Spec.code_first_Ib "pm25" 10.
Proof.
  assert (Hp : In "pm25"%string pollutants) by (simpl; auto).
  assert (Hn : isnan 10 = false) by reflexivity.
  assert (Hz : (10 =? 0) = false) by reflexivity.
  split; [exact Hp|]. split; [exact Hn|]. split; [exact Hz|].
  exact (forward_matches_section_4_1 "pm25" 10 Hp Hn Hz).
Defined.

(** Claim C1 as stated, with [Ib] = 0 below the first breakpoint, fails
    for PM2.5 at concentration 10: the code returns 33, the claimed formula
    gives 32. *)
Lemma forward_claimed_lower_index_fails :
  concentration_to_aqi "pm25" 10 = Ok (Int 33) /\
  Spec.concentration_to_index Spec.claimed_first_Ib "pm25" 10 = Ok (Int 32) /\
  concentration_to_aqi "pm25" 10
  <> Spec.concentration_to_index Spec.claimed_first_Ib "pm25" 10.
Proof.
  repeat split; try (vm_compute; reflexivity).
  intros H. vm_compute in H. discriminate H.
Qed.

(** Claim C2, as amended.  PM2.5 at concentration 10 is converted to the
    sub-index 33: [round((50 - 1) / 15.5 * 10 + 1)]. *)
Theorem pm25_ten_gives_33 : concentration_to_aqi "pm25" 10 = Ok (Int 33).
Proof. vm_compute. reflexivity. Qed.

(** Claim C2 as stated fails: the result is not 32. *)
Lemma pm25_ten_is_not_32 : concentration_to_aqi "pm25" 10 <> Ok (Int 32).
Proof. intros H. vm_compute in H. discriminate H. Qed.

(** Claim C3.  For every supported pollutant and every tabulated
    breakpoint of its table, the breakpoint is converted to the maximum
    index of the range stored under it. *)
Theorem breakpoint_gives_max_index p tbl xa rng :
  lookup p c2a.aqi_conversion_table = Ok tbl ->
  In (xa, rng) tbl ->
  concentration_to_aqi p xa = Ok (Int (range_max rng)).
Proof.
  intros Hl Hin. apply lookup_in in Hl. simpl in Hl.
  repeat (destruct Hl as [E|Hl];
    [inversion E; subst p tbl; clear E; simpl in Hin;
     repeat (destruct Hin as [E|Hin];
       [inversion E; subst xa rng; vm_compute; reflexivity|]);
     contradiction|]).
  contradiction.
Qed.

Lemma breakpoint_gives_max_index_witness :
  concentration_to_aqi "pm25" 15.5 = Ok (Int 50) /\
  concentration_to_aqi "pm25" 55.4 = Ok (Int 100).
Proof.
  split.
  - apply (breakpoint_gives_max_index "pm25" _ 15.5 (mkrange 1 (50+1)) eq_refl).
    simpl. auto.
  - apply (breakpoint_gives_max_index "pm25" _ 55.4 (mkrange 51 (100+1)) eq_refl).
    simpl. auto.
Defined.

Lemma supported_reverse p :
  In p pollutants -> exists tbl, lookup p a2c.aqi_conversion_table = Ok tbl.
Proof.
  intros H. simpl in H.
  repeat (destruct H as [<-|H]; [eexists; reflexivity|]).
  contradiction.
Qed.

(** Claim C4.  For every supported pollutant, both conversions return a
    zero or a NaN argument as it is, without interpolating. *)
Theorem zero_and_missing_propagate p x :
  In p pollutants -> (x =? 0) = true \/ isnan x = true ->
  concentration_to_aqi p x = Ok (Float x) /\
  aqi_to_concentration p x = Ok (Float x).
Proof.
  intros Hp Hx.
  destruct (supported_forward p Hp) as (tbl & Hl & _).
  destruct (supported_reverse p Hp) as (tbl' & Hl').
  unfold concentration_to_aqi, c2a.concentration_to_aqi,
    aqi_to_concentration, a2c.aqi_to_concentration.
  rewrite Hl, Hl'. simpl.
  destruct Hx as [Hx|Hx]; rewrite Hx; simpl.
  - auto.
  - rewrite andb_false_r, orb_true_r. auto.
Qed.

Lemma zero_and_missing_propagate_witness :
  (concentration_to_aqi "so2" 0 = Ok (Float 0) /\
   aqi_to_concentration "so2" 0 = Ok (Float 0)) /\
  (concentration_to_aqi "so2" nan = Ok (Float nan) /\
   aqi_to_concentration "so2" nan = Ok (Float nan)).
Proof.
  assert (Hp : In "so2"%string pollutants) by (simpl; auto 10).
  split.
  - apply (zero_and_missing_propagate "so2" 0 Hp). left. reflexivity.
  - apply (zero_and_missing_propagate "so2" nan Hp). right. reflexivity.
Defined.

End Converter.

Section Reverse.
Import Py aqi_formulation Spec Wf FloatOrder.
#[local] Open Scope float_scope.

(** Float equality with a finite value that is not zero is equality. *)
Lemma eqb_finite_eq a b :
  finite_nonzero a = true -> (a =? b) = true -> b = a.
Proof.
  unfold finite_nonzero. rewrite eqb_spec. unfold SFeqb, SFcompare.
  intros Ha H. apply Prim2SF_inj.
  destruct (Prim2SF a) as [| | |sa ma ea]; try discriminate.
  destruct (Prim2SF b) as [sb|sb| |sb mb eb]; try discriminate;
    try (destruct sa, sb; discriminate).
  change (Pos.compare_cont Eq ma mb) with (Pos.compare ma mb) in H.
  destruct sa, sb; try discriminate;
    destruct (Z.compare_spec ea eb); try discriminate;
    destruct (Pos.compare_spec ma mb); try discriminate; now subst.
Qed.

Lemma reverse_checked :
  forallb (fun e => reverse_in_bounds (fst e) (snd e) 0
                    && reverse_in_bounds (fst e) (snd e) 1)
          a2c.aqi_conversion_table = true.
Proof. vm_compute. reflexivity. Qed.

(** Claim C5.  For every supported pollutant and every index that is an
    element of the first or of the second tabulated range (the two whose
    own lower end is the anchor the loop uses), [aqi_to_concentration]
    returns a concentration between the class's lower bound (0, or the
    previous class's upper concentration) and its upper concentration,
    both included. *)
Theorem reverse_within_bounds p tbl i rng upper I :
  lookup p a2c.aqi_conversion_table = Ok tbl ->
  (i < 2)%nat ->
  nth_error tbl i = Some (rng, upper) ->
  range_contains rng I = true ->
  exists c, aqi_to_concentration p I = Ok (Float c) /\
            (Spec.lower_bound tbl i <=? c) = true /\ (c <=? upper) = true.
Proof.
  intros Hl Hi Hnth HI.
  pose proof reverse_checked as Hc. rewrite forallb_forall in Hc.
  specialize (Hc (p, tbl) (lookup_in _ _ _ Hl)). simpl in Hc.
  apply andb_true_iff in Hc. destruct Hc as [H0 H1].
  assert (Hb : reverse_in_bounds p tbl i = true).
  { destruct i as [|[|i]]; [assumption|assumption|lia]. }
  unfold reverse_in_bounds in Hb. rewrite Hnth in Hb.
  rewrite forallb_forall in Hb.
  unfold range_contains in HI. apply existsb_exists in HI.
  destruct HI as (k & Hk & Heq).
  specialize (Hb k Hk). apply andb_true_iff in Hb. destruct Hb as [Hfin Hw].
  rewrite (eqb_finite_eq _ _ Hfin Heq).
  unfold within in Hw.
  destruct (aqi_to_concentration p (of_int k)) as [[z|c]|e]; try discriminate.
  apply andb_true_iff in Hw. destruct Hw as [Hlo Hhi].
  exists c. auto.
Qed.

Lemma reverse_within_bounds_witness :
  exists c, aqi_to_concentration "pm25" 75 = Ok (Float c) /\
            (15.5 <=? c) = true /\ (c <=? 55.4) = true.
Proof.
  apply (reverse_within_bounds "pm25" _ 1 (mkrange 51 (100+1)) 55.4 75 eq_refl).
  - lia.
  - reflexivity.
  - vm_compute. reflexivity.
Defined.

(** From the third sub-range on the bound can fail: the lower anchor stays
    at the first class. *)
Lemma reverse_below_bound_pm10 :
  aqi_to_concentration "pm10" 201 = Ok (Float 273.5) /\ (273.5 <? 350) = true.
Proof. split; vm_compute; reflexivity. Qed.

(** Which classes keep the bound over their whole range, per pollutant:
    the first two always do, the later ones only in part. *)
Example reverse_bounds_by_class :
  map (fun e => (fst e, map (reverse_in_bounds (fst e) (snd e)) (seq 0 5)))
      a2c.aqi_conversion_table
  = [ ("pm25", [true; true; true; true; true]);
      ("pm10", [true; true; true; false; true]);
      ("so2", [true; true; false; true; true]);
      ("co", [true; true; false; true; true]);
      ("o3", [true; true; false; true; true]);
      ("no2", [true; true; true; true; true]) ]%string.
Proof. vm_compute. reflexivity. Qed.

(** An index that is in no range and not above the last one leaves the
    anchors at 0, and the division raises. *)
Lemma reverse_loop_falls_through tbl I keys :
  forallb (fun e => negb (range_contains (fst e) I)) keys = true ->
  (of_int (range_max (fst (a2c.last_entry tbl))) <? I) = false ->
  a2c.loop tbl I keys = anchors0.
Proof.
  intros Hk HL. induction keys as [|[key conc] keys IH]; [reflexivity|].
  simpl in Hk. apply andb_true_iff in Hk. destruct Hk as [Hc Hk].
  apply negb_true_iff in Hc. simpl. rewrite Hc, HL. now apply IH.
Qed.

Lemma reverse_raises_outside_ranges p tbl I :
  lookup p a2c.aqi_conversion_table = Ok tbl ->
  isnan I = false -> (I =? 0) = false ->
  forallb (fun e => negb (range_contains (fst e) I)) tbl = true ->
  (of_int (range_max (fst (a2c.last_entry tbl))) <? I) = false ->
  aqi_to_concentration p I = Raise ZeroDivisionError.
Proof.
  intros Hl Hn Hz Hk HL.
  unfold aqi_to_concentration, a2c.aqi_to_concentration. rewrite Hl.
  cbn [bind]. rewrite Hn, Hz. cbn [negb andb].
  rewrite (reverse_loop_falls_through tbl I tbl Hk HL).
  reflexivity.
Qed.

(** Claim C9.  For every supported pollutant there is an index, neither
    NaN nor zero and inside (0, 301], such as 50.5, on which the loop of
    [aqi_to_concentration] ends with its four anchors still 0 and the
    interpolation divides 0 by 0: the call raises [ZeroDivisionError]. *)
Theorem reverse_divides_zero_by_zero p :
  In p pollutants ->
  exists I tbl,
    isnan I = false /\ (I =? 0) = false /\
    (0 <? I) = true /\ (I <=? 301) = true /\
    lookup p a2c.aqi_conversion_table = Ok tbl /\
    a2c.loop tbl I tbl = anchors0 /\
    aqi_to_concentration p I = Raise ZeroDivisionError.
Proof.
  intros Hp.
  destruct (supported_reverse p Hp) as (tbl & Hl).
  exists 50.5, tbl.
  assert (Hk : forallb (fun e => negb (range_contains (fst e) 50.5)) tbl = true
               /\ (of_int (range_max (fst (a2c.last_entry tbl))) <? 50.5) = false).
  { pose proof (lookup_in _ _ _ Hl) as Hin. simpl in Hin.
    repeat (destruct Hin as [E|Hin];
      [inversion E; split; vm_compute; reflexivity|]).
    contradiction. }
  destruct Hk as [Hk HL].
  repeat (split; [reflexivity|]).
  split; [exact Hl|]. split.
  - exact (reverse_loop_falls_through tbl 50.5 tbl Hk HL).
  - exact (reverse_raises_outside_ranges p tbl 50.5 Hl eq_refl eq_refl Hk HL).
Qed.

Lemma reverse_divides_zero_by_zero_witness :
  exists I tbl,
    isnan I = false /\ (I =? 0) = false /\
    (0 <? I) = true /\ (I <=? 301) = true /\
    lookup "pm10" a2c.aqi_conversion_table = Ok tbl /\
    a2c.loop tbl I tbl = anchors0 /\
    aqi_to_concentration "pm10" I = Raise ZeroDivisionError.
Proof.
  apply (reverse_divides_zero_by_zero "pm10"). simpl. auto.
Defined.

(** Claim C10.  [concentration_to_aqi] is not monotone across a class
    boundary: for PM2.5, 55.4 is converted to 100 and the larger 55.5 to
    94, the lower anchor staying at the first breakpoint. *)
Theorem forward_not_monotone :
  exists p x y i j,
    In p pollutants /\ (x <? y) = true /\
    concentration_to_aqi p x = Ok (Int i) /\
    concentration_to_aqi p y = Ok (Int j) /\
    (j < i)%Z.
Proof.
  exists "pm25"%string, 55.4, 55.5, 100%Z, 94%Z.
  split; [simpl; auto|].
  repeat (split; [vm_compute; reflexivity|]). reflexivity.
Qed.

End Reverse.

(** Decide every integer comparison of the goal in the current case. *)
Ltac zbool :=
  repeat match goal with
  | |- context [(?a <=? ?b)%Z] =>
      first [rewrite (proj2 (Z.leb_le a b)) by lia
            |rewrite (proj2 (Z.leb_gt a b)) by lia]
  | |- context [(?a <? ?b)%Z] =>
      first [rewrite (proj2 (Z.ltb_lt a b)) by lia
            |rewrite (proj2 (Z.ltb_ge a b)) by lia]
  | |- context [(?a =? ?b)%Z] =>
      first [rewrite (proj2 (Z.eqb_eq a b)) by lia
            |rewrite (proj2 (Z.eqb_neq a b)) by lia]
  end.

Section Daily.
Import Py merge_daily_data Wf FloatOrder.
#[local] Open Scope float_scope.

Lemma idxmax_argmax cells : forall best,
  idxmax_axis1 best cells = option_map fst (argmax best cells).
Proof.
  induction cells as [|[l x] cells IH]; intros best; simpl; [reflexivity|].
  destruct (isnan x); [apply IH|].
  destruct best as [[lb b]|]; [|apply IH].
  destruct (b <? x); apply IH.
Qed.

Lemma max_argmax_from cells : forall lb b,
  isnan b = false ->
  exists l, argmax (Some (lb, b)) cells = Some (l, max_axis1 b cells).
Proof.
  induction cells as [|[l x] cells IH]; intros lb b Hb; simpl; [eauto|].
  destruct (isnan x) eqn:Hx; [now apply IH|].
  rewrite Hb. destruct (b <? x); now apply IH.
Qed.

Lemma max_argmax cells acc :
  isnan acc = true ->
  max_axis1 acc cells
  = match argmax None cells with Some (_, v) => v | None => acc end.
Proof.
  intros Hacc. induction cells as [|[l x] cells IH]; simpl; [reflexivity|].
  destruct (isnan x) eqn:Hx; [assumption|].
  rewrite Hacc. destruct (max_argmax_from cells l x Hx) as [l' E].
  now rewrite E.
Qed.

(** From a current best cell on, the search ends on a cell that bounds
    the best one and every later cell, and that is either the best one or
    the first later cell above everything before it. *)
Lemma argmax_from cells : forall lb b,
  isnan b = false ->
  exists l v,
    argmax (Some (lb, b)) cells = Some (l, v) /\
    isnan v = false /\
    (b <=? v) = true /\
    (forall l' x, In (l', x) cells -> isnan x = false -> (x <=? v) = true) /\
    ((l, v) = (lb, b) \/
     exists pre post,
       cells = pre ++ (l, v) :: post /\ (b <? v) = true /\
       forall l' x, In (l', x) pre -> isnan x = true \/ (x <? v) = true).
Proof.
  induction cells as [|[l1 x] cells IH]; intros lb b Hb.
  - exists lb, b. repeat split; auto using leb_refl.
  - simpl. destruct (isnan x) eqn:Hx.
    + destruct (IH lb b Hb) as (l & v & Ha & Hv & Hbv & Hall & Hpos).
      exists l, v. repeat split; auto.
      * intros l' x' [E|Hin] Hn; [inversion E; subst; congruence|eauto].
      * destruct Hpos as [E|(pre & post & Ec & Hlt & Hpre)]; [now left|right].
        exists ((l1, x) :: pre), post. repeat split; auto.
        -- now rewrite Ec.
        -- intros l' x' [E|Hin]; [inversion E; subst; now left|eauto].
    + destruct (b <? x) eqn:Hbx.
      * destruct (IH l1 x Hx) as (l & v & Ha & Hv & Hxv & Hall & Hpos).
        exists l, v. repeat split; auto.
        -- apply ltb_leb. eapply ltb_leb_trans; eauto.
        -- intros l' x' [E|Hin] Hn; [inversion E; now subst|eauto].
        -- right. destruct Hpos as [E|(pre & post & Ec & Hlt & Hpre)].
           ++ inversion E; subst l v. exists [], cells. repeat split; auto.
           ++ exists ((l1, x) :: pre), post. repeat split.
              ** now rewrite Ec.
              ** eapply ltb_trans; eauto.
              ** intros l' x' [E|Hin]; [inversion E; subst; now right|eauto].
      * pose proof (not_ltb_leb _ _ Hb Hx Hbx) as Hxb.
        destruct (IH lb b Hb) as (l & v & Ha & Hv & Hbv & Hall & Hpos).
        exists l, v. repeat split; auto.
        -- intros l' x' [E|Hin] Hn; [inversion E; subst|eauto].
           eapply leb_trans; eauto.
        -- destruct Hpos as [E|(pre & post & Ec & Hlt & Hpre)]; [now left|right].
           exists ((l1, x) :: pre), post. repeat split; auto.
           ++ now rewrite Ec.
           ++ intros l' x' [E|Hin]; [inversion E; subst; right|eauto].
              eapply leb_ltb_trans; eauto.
Qed.

Lemma argmax_all_nan cells :
  Forall (fun c => isnan (snd c) = true) cells -> argmax None cells = None.
Proof.
  induction 1 as [|[l x] cells Hx _ IH]; [reflexivity|].
  simpl in *. now rewrite Hx.
Qed.

Lemma argmax_first cells :
  Exists (fun c => isnan (snd c) = false) cells ->
  exists pre l v post,
    cells = pre ++ (l, v) :: post /\
    argmax None cells = Some (l, v) /\
    isnan v = false /\
    (forall l' x, In (l', x) cells -> isnan x = false -> (x <=? v) = true) /\
    (forall l' x, In (l', x) pre -> isnan x = true \/ (x <? v) = true).
Proof.
  induction cells as [|[l1 x] cells IH]; intros Hex; [inversion Hex|].
  simpl. destruct (isnan x) eqn:Hx.
  - assert (Hex' : Exists (fun c => isnan (snd c) = false) cells).
    { inversion Hex as [? ? H|]; subst; [simpl in H; congruence|assumption]. }
    destruct (IH Hex') as (pre & l & v & post & Ec & Ha & Hv & Hall & Hpre).
    exists ((l1, x) :: pre), l, v, post. repeat split; auto.
    + now rewrite Ec.
    + intros l' x' [E|Hin] Hn; [inversion E; subst; congruence|eauto].
    + intros l' x' [E|Hin]; [inversion E; subst; now left|eauto].
  - destruct (argmax_from cells l1 x Hx) as (l & v & Ha & Hv & Hxv & Hall & Hpos).
    destruct Hpos as [E|(pre & post & Ec & Hlt & Hpre)].
    + inversion E; subst l v. exists [], l1, x, cells. repeat split; auto.
      intros l' x' [E'|Hin] Hn; [inversion E'; now subst|eauto].
    + exists ((l1, x) :: pre), l, v, post. repeat split; auto.
      * now rewrite Ec.
      * intros l' x' [E|Hin] Hn; [inversion E; now subst|eauto].
      * intros l' x' [E|Hin]; [inversion E; subst; now right|eauto].
Qed.

(** Claim C6, as amended.  For every row of the daily table with at
    least one sub-index present, the [max] column is the largest present
    sub-index and the [critical] column is the upper-cased label of the
    first column, in the order pm25, pm10, so2, co, o3, no2, that holds it;
    for a row whose six sub-indices are all missing, [max] is missing and
    [critical] names no column. *)
Theorem daily_max_and_critical (r : sub_indices) :
  (Forall (fun c => isnan (snd c) = true) (columns r) ->
     isnan (max_column r) = true /\ critical_column r = None) /\
  (Exists (fun c => isnan (snd c) = false) (columns r) ->
     exists pre label v post,
       columns r = pre ++ (label, v) :: post /\
       isnan v = false /\
       max_column r = v /\
       critical_column r = Some (str_upper label) /\
       (forall l x, In (l, x) (columns r) -> isnan x = false -> (x <=? v) = true) /\
       (forall l x, In (l, x) pre -> isnan x = true \/ (x <? v) = true)).
Proof.
  unfold max_column, critical_column.
  rewrite idxmax_argmax, (max_argmax (columns r) nan eq_refl).
  split.
  - intros H. rewrite (argmax_all_nan _ H). split; reflexivity.
  - intros H.
    destruct (argmax_first _ H) as (pre & l & v & post & Ec & Ha & Hv & Hall & Hpre).
    exists pre, l, v, post. rewrite Ha. repeat split; auto.
Qed.

Lemma daily_max_and_critical_witness :
  exists pre label v post,
    columns (mksub nan 40 75 nan 75 12) = pre ++ (label, v) :: post /\
    isnan v = false /\
    max_column (mksub nan 40 75 nan 75 12) = v /\
    critical_column (mksub nan 40 75 nan 75 12) = Some (str_upper label) /\
    (forall l x, In (l, x) (columns (mksub nan 40 75 nan 75 12)) ->
                 isnan x = false -> (x <=? v) = true) /\
    (forall l x, In (l, x) pre -> isnan x = true \/ (x <? v) = true).
Proof.
  apply (proj2 (daily_max_and_critical (mksub nan 40 75 nan 75 12))).
  apply Exists_cons_tl. apply Exists_cons_hd. reflexivity.
Defined.

Example daily_max_and_critical_tie :
  max_column (mksub nan 40 75 nan 75 12) = 75 /\
  critical_column (mksub nan 40 75 nan 75 12) = Some "SO2"%string.
Proof. split; vm_compute; reflexivity. Qed.

(** Claim C6 as stated fails on a row without any sub-index, which the
    alignment step creates for every day without data: no column name is
    produced. *)
Lemma all_missing_row_has_no_dominant :
  ~ (exists label, critical_column (mksub nan nan nan nan nan nan) = Some label)
  /\ isnan (max_column (mksub nan nan nan nan nan nan)) = true.
Proof.
  split; [|reflexivity]. intros [label H]. vm_compute in H. discriminate H.
Qed.

(** *** The category *)

Lemma category_cases m :
  (m < 0 \/ m = 0 \/ 1 <= m <= 50 \/ 51 <= m <= 100 \/ 101 <= m <= 200
   \/ 201 <= m <= 300 \/ 301 <= m)%Z.
Proof. lia. Qed.

Lemma category_loop_spec m :
  category_loop m kategori_ispu = Spec.category m.
Proof.
  unfold Spec.category, kategori_ispu, category_loop, in_range. simpl.
  destruct (category_cases m) as [H|[H|[H|[H|[H|[H|H]]]]]]; zbool; reflexivity.
Qed.

Lemma category_nonneg m : (0 <= m)%Z -> exists c, Spec.category m = Some c.
Proof.
  intros H0. unfold Spec.category.
  destruct (category_cases m) as [H|[H|[H|[H|[H|[H|H]]]]]];
    [lia|..]; zbool; simpl; eauto.
Qed.

(** Claim C7.  With composite indices that are not negative, the
    category of every row is the one the priority list of the
    specification gives for the row's own index: "TIDAK ADA DATA" for 0,
    "BAIK" for 1-50, "SEDANG" for 51-100, "TIDAK SEHAT" for 101-200,
    "SANGAT TIDAK SEHAT" for 201-300 and "BERBAHAYA" from 301 on. *)
Theorem categori_by_priority maxs i m :
  Forall (fun m => (0 <= m)%Z) maxs ->
  nth_error maxs i = Some m ->
  categori_column maxs i = Spec.category m.
Proof.
  unfold categori_column. intros H. revert i.
  induction H as [|m0 maxs Hm0 _ IH]; intros i Hi; [now destruct i|].
  cbn [categori]. rewrite category_loop_spec.
  destruct (category_nonneg m0 Hm0) as [c Hc]. rewrite Hc.
  destruct i as [|i]; simpl in *.
  - inversion Hi; subst. now rewrite Hc.
  - now apply IH.
Qed.

(** The boundary values named by the specification. *)
Example categori_boundaries :
  categori [0; 50; 51; 300; 301]%Z
  = [ "TIDAK ADA DATA"; "BAIK"; "SEDANG"; "SANGAT TIDAK SEHAT";
      "BERBAHAYA" ]%string.
Proof. reflexivity. Qed.

(** A negative index appends nothing, so the labels after it move up by
    one row. *)
Example categori_negative_shifts :
  categori_column [-1; 50]%Z 0 = Some "BAIK"%string /\
  categori_column [-1; 50]%Z 1 = None.
Proof. split; reflexivity. Qed.

Lemma categori_by_priority_witness :
  categori_column [0; 50; 51; 300; 301]%Z 3 = Spec.category 300.
Proof.
  apply (categori_by_priority [0; 50; 51; 300; 301]%Z 3 300%Z).
  - repeat constructor; lia.
  - reflexivity.
Defined.

End Daily.

Section Alignment.
Import Py merge_daily_data.

Lemma count_rows_app s d l1 l2 :
  count_rows s d (l1 ++ l2) = (count_rows s d l1 + count_rows s d l2)%nat.
Proof. unfold count_rows. now rewrite filter_app, length_app. Qed.

Lemma count_rows_cons s d r l :
  count_rows s d (r :: l)
  = ((if String.eqb (stasiun r) s && (tanggal r =? d)%Z then 1 else 0)
     + count_rows s d l)%nat.
Proof. unfold count_rows. simpl. now destruct (_ && _). Qed.

Lemma count_rows_perm s d l l' :
  Permutation l l' -> count_rows s d l = count_rows s d l'.
Proof.
  induction 1; try reflexivity.
  - rewrite !count_rows_cons. now f_equal.
  - rewrite !count_rows_cons. lia.
  - congruence.
Qed.

Lemma count_rows_map s d f l :
  (forall r, stasiun (f r) = stasiun r /\ tanggal (f r) = tanggal r) ->
  count_rows s d (map f l) = count_rows s d l.
Proof.
  intros Hf. induction l as [|r l IH]; [reflexivity|].
  simpl map. rewrite !count_rows_cons, IH.
  destruct (Hf r) as [-> ->]. reflexivity.
Qed.

Lemma clear_pm25_keys r :
  stasiun (clear_pm25 r) = stasiun r /\ tanggal (clear_pm25 r) = tanggal r.
Proof. unfold clear_pm25. now destruct (_ && _). Qed.

(** A day of the range occurs once in it. *)
Lemma date_range_once a n k d :
  List.length (filter (fun d' => d' =? d)
                 (map (fun i => a + Z.of_nat i) (seq k n)))
  = if (a + Z.of_nat k <=? d) && (d <? a + Z.of_nat k + Z.of_nat n)
    then 1%nat else 0%nat.
Proof.
  revert k. induction n as [|n IH]; intros k; cbn [seq map filter].
  - destruct (Z.lt_ge_cases d (a + Z.of_nat k)); zbool;
      rewrite ?andb_false_r; reflexivity.
  - destruct (Z.lt_trichotomy d (a + Z.of_nat k)) as [H|[H|H]].
    + zbool. rewrite IH. zbool. reflexivity.
    + zbool. cbn [List.length]. rewrite IH. zbool. reflexivity.
    + destruct (Z.lt_ge_cases d (a + Z.of_nat k + Z.of_nat (S n)));
        zbool; rewrite IH; zbool; reflexivity.
Qed.

Lemma date_range_count a b d :
  a <= d <= b ->
  List.length (filter (fun d' => d' =? d) (date_range a b)) = 1%nat.
Proof.
  intros H. unfold date_range. rewrite date_range_once. zbool. reflexivity.
Qed.

(** The day is present for the station exactly when some row counts. *)
Lemma present_iff_counted s d tbl :
  existsb (Z.eqb d) (dates_of s tbl) = negb (count_rows s d tbl =? 0)%nat.
Proof.
  unfold dates_of. induction tbl as [|r tbl IH]; [reflexivity|].
  rewrite count_rows_cons. simpl filter.
  destruct (String.eqb (stasiun r) s); simpl.
  - rewrite IH, (Z.eqb_sym d). destruct (tanggal r =? d); reflexivity.
  - exact IH.
Qed.

Lemma count_unavailable_same s d tbl :
  range_start <= d <= range_end ->
  count_rows s d (unavailable_date_dataframe s tbl)
  = if (count_rows s d tbl =? 0)%nat then 1%nat else 0%nat.
Proof.
  intros Hd. unfold unavailable_date_dataframe, difference.
  rewrite <- (date_range_count _ _ _ Hd).
  pose proof (present_iff_counted s d tbl) as Hp.
  induction (date_range range_start range_end) as [|d' l IH]; simpl.
  - now destruct (_ =? _)%nat.
  - destruct (existsb (Z.eqb d') (dates_of s tbl)) eqn:Ed'; simpl.
    + rewrite IH. destruct (Z.eqb_spec d' d) as [->|_]; [|reflexivity].
      rewrite Ed' in Hp. destruct (count_rows s d tbl =? 0)%nat; [discriminate|].
      reflexivity.
    + rewrite count_rows_cons. simpl. rewrite String.eqb_refl, IH. simpl.
      destruct (Z.eqb_spec d' d) as [->|_]; [|reflexivity].
      rewrite Ed' in Hp. destruct (count_rows s d tbl =? 0)%nat; [|discriminate].
      reflexivity.
Qed.

Lemma count_unavailable_other s s' d tbl :
  s' <> s -> count_rows s d (unavailable_date_dataframe s' tbl) = 0%nat.
Proof.
  intros Hs. unfold unavailable_date_dataframe.
  induction (difference _ _) as [|d' l IH]; [reflexivity|].
  simpl map. rewrite count_rows_cons, IH. simpl.
  destruct (String.eqb_spec s' s); [contradiction|reflexivity].
Qed.

Lemma count_unavailable_absent s d stations tbl :
  ~ In s stations -> count_rows s d (unavailable_dates stations tbl) = 0%nat.
Proof.
  unfold unavailable_dates.
  induction stations as [|s' stations IH]; intros Hs; [reflexivity|].
  simpl flat_map. rewrite count_rows_app, count_unavailable_other, IH; auto.
  - intros H. apply Hs. now right.
  - intros ->. apply Hs. now left.
Qed.

Lemma count_unavailable s d stations tbl :
  NoDup stations -> In s stations -> range_start <= d <= range_end ->
  count_rows s d (unavailable_dates stations tbl)
  = if (count_rows s d tbl =? 0)%nat then 1%nat else 0%nat.
Proof.
  intros Hnd Hin Hd. unfold unavailable_dates.
  induction Hnd as [|s' stations Hs' Hnd IH]; [contradiction|].
  simpl flat_map. rewrite count_rows_app.
  destruct (string_dec s' s) as [->|Hne].
  - fold (unavailable_dates stations tbl).
    rewrite count_unavailable_same, count_unavailable_absent by assumption. lia.
  - rewrite count_unavailable_other by assumption.
    destruct Hin as [E|Hin]; [contradiction|]. now apply IH.
Qed.

(** Claim C8, as amended.  After the alignment, for every station of a
    station list without repeats and every day from 2010-01-01 to
    2021-12-31, the table holds at least one row for that station and day:
    one row when the renamed raw table has none or one, and as many rows
    as the raw table has otherwise. *)
Theorem alignment_row_count stations raw s d :
  NoDup stations -> In s stations -> range_start <= d <= range_end ->
  count_rows s d (load_and_process_aqi_raw_data stations raw)
  = Nat.max 1 (count_rows s d (map replace_station raw)).
Proof.
  intros Hnd Hin Hd. unfold load_and_process_aqi_raw_data.
  rewrite <- (count_rows_perm s d _ _ (RowSort.Permuted_sort _)).
  rewrite (count_rows_map s d clear_pm25 _ clear_pm25_keys).
  rewrite count_rows_app, (count_unavailable s d stations _ Hnd Hin Hd).
  destruct (count_rows s d (map replace_station raw)) as [|n]; simpl; lia.
Qed.

Lemma measurement_stations_nodup : NoDup measurement_stations.
Proof.
  unfold measurement_stations.
  repeat (constructor; [simpl; intros H;
    repeat (destruct H as [H|H]; [discriminate H|]); exact H|]).
  constructor.
Qed.

Lemma alignment_row_count_witness :
  count_rows "DKI3 (Jagakarsa)" (days_from_civil 2020 1 2)
    (load_and_process_aqi_raw_data measurement_stations
       [mkrow (days_from_civil 2020 1 1) "DKI3 (Jagakarsa)" 10 20 30 40 50 60])
  = 1%nat.
Proof.
  apply (alignment_row_count measurement_stations
           [mkrow (days_from_civil 2020 1 1) "DKI3 (Jagakarsa)" 10 20 30 40 50 60]
           "DKI3 (Jagakarsa)" (days_from_civil 2020 1 2)).
  - exact measurement_stations_nodup.
  - simpl. auto.
  - vm_compute. split; discriminate.
Defined.

(** Claim C8 as stated fails when the raw table has two rows for one
    station and day: the alignment adds missing days and removes nothing,
    so both rows remain. *)
Lemma alignment_keeps_duplicates :
  count_rows "DKI1 (Bunderan HI)" (days_from_civil 2020 1 1)
    (load_and_process_aqi_raw_data measurement_stations
       [mkrow (days_from_civil 2020 1 1) "DKI1 (Bunderan HI)" 10 20 30 40 50 60;
        mkrow (days_from_civil 2020 1 1) "DKI1 (Bunderan HI)" 12 22 32 42 52 62])
  = 2%nat.
Proof. vm_compute. reflexivity. Qed.

End Alignment.

(* ================================================================= *)
(** ** The converter beyond the specification *)

Section ConverterMore.
Import Py aqi_formulation Spec Wf FloatOrder Checks.
#[local] Open Scope float_scope.

Lemma lookup_missing {A} p (d : list (string * A)) :
  ~ In p (map fst d) -> lookup p d = Raise KeyError.
Proof.
  induction d as [|[k v] d IH]; simpl; intros H; [reflexivity|].
  destruct (String.eqb_spec p k) as [->|_].
  - exfalso. apply H. now left.
  - apply IH. intros Hin. apply H. now right.
Qed.

(** Property X1.  An unsupported pollutant name raises [KeyError] in both
    directions, whatever the number, zero and NaN included: the table is
    looked up before the number is tested. *)
Theorem unsupported_pollutant_raises p x :
  ~ In p pollutants ->
  concentration_to_aqi p x = Raise KeyError /\
  aqi_to_concentration p x = Raise KeyError.
Proof.
  intros Hp.
  unfold concentration_to_aqi, c2a.concentration_to_aqi,
    aqi_to_concentration, a2c.aqi_to_concentration.
  rewrite (lookup_missing p c2a.aqi_conversion_table Hp).
  rewrite (lookup_missing p a2c.aqi_conversion_table Hp).
  split; reflexivity.
Qed.

Lemma unsupported_pollutant_raises_witness :
  concentration_to_aqi "pm1" 0 = Raise KeyError /\
  aqi_to_concentration "pm1" 0 = Raise KeyError.
Proof.
  apply (unsupported_pollutant_raises "pm1" 0).
  simpl. intros H.
  repeat (destruct H as [H|H]; [discriminate H|]). exact H.
Defined.

Lemma round_raises x e :
  round x = Raise e -> e = OverflowError \/ e = ValueError.
Proof.
  unfold round. destruct (Prim2SF x); intros H; inversion H; auto.
Qed.

(** Property X2.  On a supported pollutant the forward conversion never
    divides by zero and never misses a key: the only exceptions it can raise
    are the ones of [round]. *)
Theorem forward_raises_only_from_round p x e :
  In p pollutants ->
  concentration_to_aqi p x = Raise e ->
  e = OverflowError \/ e = ValueError.
Proof.
  intros Hp.
  destruct (supported_forward p Hp) as (tbl & Hl & Hok).
  unfold concentration_to_aqi, c2a.concentration_to_aqi.
  rewrite Hl. cbn [bind].
  destruct (x =? 0) eqn:Hz; cbn [negb andb orb]; [discriminate|].
  destruct (isnan x) eqn:Hn; cbn [negb andb orb]; [discriminate|].
  destruct (interpolate_formula tbl x Hok Hn)
    as (x0 & rng0 & rest & xa & rng & _ & _ & Hi).
  rewrite Hi. unfold index_formula.
  destruct (round _) as [z|e'] eqn:Hr; cbn [bind]; [discriminate|].
  intros H. inversion H; subst e'. exact (round_raises _ _ Hr).
Qed.

Lemma forward_raises_only_from_round_witness :
  concentration_to_aqi "pm25" infinity = Raise OverflowError /\
  (OverflowError = OverflowError \/ OverflowError = ValueError).
Proof.
  split; [vm_compute; reflexivity|].
  apply (forward_raises_only_from_round "pm25" infinity OverflowError).
  - simpl. auto.
  - vm_compute. reflexivity.
Defined.

(** Property X3.  The two tables hold the same classes: the table of the
    reverse conversion is the table of the forward one with key and value
    exchanged. *)
Theorem tables_mirror :
  map (fun e => (fst e, map (fun b => (snd b, fst b)) (snd e)))
      c2a.aqi_conversion_table
  = a2c.aqi_conversion_table.
Proof. reflexivity. Qed.

Lemma reverse_members_checked :
  forallb (fun e => reverse_members (fst e) (snd e) && reverse_extrapolates (snd e))
          a2c.aqi_conversion_table = true.
Proof. vm_compute. reflexivity. Qed.

(** The facts of the check for one member of one range. *)
Lemma member_facts p tbl rng conc I :
  lookup p a2c.aqi_conversion_table = Ok tbl ->
  In (rng, conc) tbl ->
  range_contains rng I = true ->
  exists k, I = of_int k /\
    (of_int (range_max (fst (a2c.last_entry tbl))) <? I) = false /\
    reverse_positive p (snd (a2c.last_entry tbl)) k = true.
Proof.
  intros Hl Hin HI.
  pose proof reverse_members_checked as Hc. rewrite forallb_forall in Hc.
  specialize (Hc (p, tbl) (lookup_in _ _ _ Hl)). simpl in Hc.
  apply andb_true_iff in Hc. destruct Hc as [Hc _].
  unfold reverse_members in Hc. rewrite forallb_forall in Hc.
  specialize (Hc _ Hin). simpl in Hc. rewrite forallb_forall in Hc.
  unfold range_contains in HI. apply existsb_exists in HI.
  destruct HI as (k & Hk & Heq).
  specialize (Hc k Hk).
  apply andb_true_iff in Hc. destruct Hc as [Hc Hpos].
  apply andb_true_iff in Hc. destruct Hc as [Hfin Hle].
  pose proof (eqb_finite_eq _ _ Hfin Heq) as ->.
  exists k. repeat split; auto. now apply negb_true_iff.
Qed.

Lemma reverse_member_ok p tbl rng conc I :
  lookup p a2c.aqi_conversion_table = Ok tbl ->
  In (rng, conc) tbl ->
  range_contains rng I = true ->
  exists c, aqi_to_concentration p I = Ok (Float c) /\
            (0 <? c) = true /\ (c <=? snd (a2c.last_entry tbl)) = true.
Proof.
  intros Hl Hin HI.
  destruct (member_facts p tbl rng conc I Hl Hin HI) as (k & -> & _ & Hpos).
  unfold reverse_positive in Hpos.
  destruct (aqi_to_concentration p (of_int k)) as [[z|c]|e]; try discriminate.
  apply andb_true_iff in Hpos. destruct Hpos. eauto.
Qed.

(** Property X4.  An index that is an element of one of the tabulated ranges
    is always converted: the reverse conversion returns a concentration
    above 0 and at most the last breakpoint, and raises nothing. *)
Theorem reverse_succeeds_on_members p tbl rng conc I :
  lookup p a2c.aqi_conversion_table = Ok tbl ->
  In (rng, conc) tbl ->
  range_contains rng I = true ->
  exists c, aqi_to_concentration p I = Ok (Float c) /\
            (0 <? c) = true /\ (c <=? snd (a2c.last_entry tbl)) = true.
Proof. exact (reverse_member_ok p tbl rng conc I). Qed.

Lemma reverse_succeeds_on_members_witness :
  exists c, aqi_to_concentration "o3" 250 = Ok (Float c) /\
            (0 <? c) = true /\ (c <=? 1000) = true.
Proof.
  apply (reverse_succeeds_on_members "o3" _ (mkrange 201 (300+1)) 800 250 eq_refl).
  - simpl. auto.
  - vm_compute. reflexivity.
Defined.

Lemma ltb_not_eqb a b : (a <? b) = true -> (b =? a) = false.
Proof.
  intros H. destruct (ltb_not_nan _ _ H) as [Ha Hb].
  rewrite (ltb_key _ _ Ha Hb) in H. rewrite (eqb_key _ _ Hb Ha).
  unfold lex3 in *.
  destruct (key a) as [a1 [a2 a3]], (key b) as [b1 [b2 b3]]; simpl in *.
  repeat match goal with
  | |- context [Z.compare ?x ?y] => destruct (Z.compare_spec x y)
  | H : context [Z.compare ?x ?y] |- _ => destruct (Z.compare_spec x y)
  end; try congruence; try lia.
Qed.

Lemma reverse_above_last p tbl I :
  lookup p a2c.aqi_conversion_table = Ok tbl ->
  (of_int (range_max (fst (a2c.last_entry tbl))) <? I) = true ->
  aqi_to_concentration p I
  = Ok (Float (round1
      ((snd (a2c.last_entry tbl) - snd (a2c.first_entry tbl))
       / of_int (range_max (fst (a2c.last_entry tbl))
                 - range_max (fst (a2c.first_entry tbl)))
       * (I - of_int (range_max (fst (a2c.first_entry tbl))))
       + snd (a2c.first_entry tbl)))).
Proof.
  intros Hl Habove.
  pose proof reverse_members_checked as Hc. rewrite forallb_forall in Hc.
  specialize (Hc (p, tbl) (lookup_in _ _ _ Hl)). simpl in Hc.
  apply andb_true_iff in Hc. destruct Hc as [_ Hc].
  unfold reverse_extrapolates in Hc.
  apply andb_true_iff in Hc. destruct Hc as [Hc Hne].
  apply andb_true_iff in Hc. destruct Hc as [Hfl Hden].
  apply negb_true_iff in Hden.
  destruct (ltb_not_nan _ _ Habove) as [_ Hn].
  assert (Hz : (I =? 0) = false).
  { destruct (I =? 0) eqn:E; [|reflexivity]. exfalso.
    destruct (eqb_not_nan _ _ E) as [_ H0].
    assert (H1 : (0 <? of_int (range_max (fst (a2c.last_entry tbl)))) = true).
    { apply lookup_in in Hl. simpl in Hl.
      repeat (destruct Hl as [El|Hl]; [inversion El; vm_compute; reflexivity|]).
      contradiction. }
    pose proof (ltb_trans _ _ _ H1 Habove) as H2.
    rewrite (ltb_not_eqb _ _ H2) in E. discriminate. }
  pose proof (ltb_trans _ _ _ Hfl Habove) as Hfirst.
  unfold aqi_to_concentration, a2c.aqi_to_concentration.
  rewrite Hl. cbn [bind]. rewrite Hz. change (isnan I) with (PrimFloat.is_nan I).
  rewrite Hn. cbn [negb andb].
  destruct tbl as [|[key conc] rest] eqn:Et; [discriminate|]. rewrite <- Et in *.
  assert (Hnot : range_contains key I = false).
  { destruct (range_contains key I) eqn:E; [|reflexivity].
    destruct (member_facts p tbl key conc I Hl) as (k & _ & Hk & _); auto.
    - rewrite Et. now left.
    - congruence. }
  replace (a2c.loop tbl I tbl) with (a2c.loop tbl I ((key, conc) :: rest))
    by now rewrite Et.
  cbn [a2c.loop]. rewrite Hnot, Habove.
  unfold a2c.interpolate, a2c.lower_Ib, a2c.above_first, Py.div.
  cbn [Xa Xb Ia Ib]. rewrite Hfirst, Hden. reflexivity.
Qed.

(** Property X5.  An index above the last range's maximum (301) is
    extrapolated on the line through the first and the last class: the
    result is [round((Xlast - Xfirst) / (301 - 50) * (I - 50) + Xfirst, 1)],
    and nothing is raised. *)
Theorem reverse_extrapolates_above_last p tbl I :
  lookup p a2c.aqi_conversion_table = Ok tbl ->
  (of_int (range_max (fst (a2c.last_entry tbl))) <? I) = true ->
  aqi_to_concentration p I
  = Ok (Float (round1
      ((snd (a2c.last_entry tbl) - snd (a2c.first_entry tbl))
       / of_int (range_max (fst (a2c.last_entry tbl))
                 - range_max (fst (a2c.first_entry tbl)))
       * (I - of_int (range_max (fst (a2c.first_entry tbl))))
       + snd (a2c.first_entry tbl)))).
Proof. exact (reverse_above_last p tbl I). Qed.

Lemma reverse_extrapolates_above_last_witness :
  aqi_to_concentration "pm10" 400
  = Ok (Float (round1 ((500 - 50) / of_int (301 - 50) * (400 - of_int 50) + 50))).
Proof.
  apply (reverse_extrapolates_above_last "pm10" _ 400 eq_refl).
  vm_compute. reflexivity.
Defined.

(** Property X6.  For a supported pollutant and an index that is neither NaN
    nor zero, the reverse conversion raises exactly when the index is an
    element of no range and is not above the last range's maximum; the
    exception is then [ZeroDivisionError], and no other exception is ever
    raised. *)
Theorem reverse_raises_iff p tbl I e :
  lookup p a2c.aqi_conversion_table = Ok tbl ->
  isnan I = false -> (I =? 0) = false ->
  (aqi_to_concentration p I = Raise e <->
   e = ZeroDivisionError /\
   forallb (fun en => negb (range_contains (fst en) I)) tbl = true /\
   (of_int (range_max (fst (a2c.last_entry tbl))) <? I) = false).
Proof.
  intros Hl Hn Hz. split.
  - intros Hr.
    destruct (of_int (range_max (fst (a2c.last_entry tbl))) <? I) eqn:Habove.
    { rewrite (reverse_above_last p tbl I Hl Habove) in Hr. discriminate. }
    destruct (forallb (fun en => negb (range_contains (fst en) I)) tbl) eqn:Hall.
    + rewrite (reverse_raises_outside_ranges p tbl I Hl Hn Hz Hall Habove) in Hr.
      inversion Hr. auto.
    + exfalso.
      assert (Hex : exists en, In en tbl /\ range_contains (fst en) I = true).
      { clear -Hall. induction tbl as [|a l IH]; [discriminate|].
        simpl in Hall. destruct (range_contains (fst a) I) eqn:E.
        - exists a. split; [now left|assumption].
        - simpl in Hall. destruct (IH Hall) as (en & Hin & Hen).
          exists en. split; [now right|assumption]. }
      destruct Hex as ([rng conc] & Hin & Hen).
      destruct (reverse_member_ok p tbl rng conc I Hl Hin Hen) as (c & Hc & _).
      rewrite Hc in Hr. discriminate.
  - intros (-> & Hall & Habove).
    exact (reverse_raises_outside_ranges p tbl I Hl Hn Hz Hall Habove).
Qed.

Lemma reverse_raises_iff_witness :
  aqi_to_concentration "co" 100.5 = Raise ZeroDivisionError.
Proof.
  apply (proj2 (reverse_raises_iff "co" _ 100.5 ZeroDivisionError
                  eq_refl eq_refl eq_refl)).
  repeat split; vm_compute; reflexivity.
Defined.

Lemma round_trip_checked :
  forallb (fun p =>
    forallb (fun k => round_trip p k k) (range_elems (mkrange 51 101))
    && forallb (fun k => round_trip p k (k + 1)) (range_elems (mkrange 1 22)))
    pollutants = true.
Proof. vm_compute. reflexivity. Qed.

Lemma in_range_elems r k :
  (start r <= k < stop r)%Z -> In k (range_elems r).
Proof.
  intros H. unfold range_elems. apply in_map_iff.
  exists (Z.to_nat (k - start r)). split; [lia|].
  apply in_seq. lia.
Qed.

(** Property X7.  On the second class (indices 51 to 100) the two
    conversions are inverse for every supported pollutant: the concentration
    returned for an index is converted back to that index. *)
Theorem round_trip_second_class p k :
  In p pollutants -> (51 <= k <= 100)%Z ->
  exists c, aqi_to_concentration p (of_int k) = Ok (Float c) /\
            concentration_to_aqi p c = Ok (Int k).
Proof.
  intros Hp Hk.
  pose proof round_trip_checked as Hc. rewrite forallb_forall in Hc.
  specialize (Hc p Hp). apply andb_true_iff in Hc. destruct Hc as [Hc _].
  rewrite forallb_forall in Hc.
  specialize (Hc k (in_range_elems (mkrange 51 101) k ltac:(simpl; lia))).
  unfold round_trip in Hc.
  destruct (aqi_to_concentration p (of_int k)) as [[z|c]|e]; try discriminate.
  exists c. split; [reflexivity|].
  destruct (concentration_to_aqi p c) as [[i|f]|e]; try discriminate.
  apply Z.eqb_eq in Hc. now subst.
Qed.

Lemma round_trip_second_class_witness :
  exists c, aqi_to_concentration "no2" (of_int 77) = Ok (Float c) /\
            concentration_to_aqi "no2" c = Ok (Int 77).
Proof.
  apply (round_trip_second_class "no2" 77).
  - simpl. auto 10.
  - lia.
Defined.

(** Property X8.  On the low indices of the first class the two conversions
    are not inverse: for every supported pollutant an index from 1 to 21
    comes back one higher, the forward conversion starting the first class
    at index 1 and the reverse one at index 0. *)
Theorem round_trip_first_class_shifts p k :
  In p pollutants -> (1 <= k <= 21)%Z ->
  exists c, aqi_to_concentration p (of_int k) = Ok (Float c) /\
            concentration_to_aqi p c = Ok (Int (k + 1)).
Proof.
  intros Hp Hk.
  pose proof round_trip_checked as Hc. rewrite forallb_forall in Hc.
  specialize (Hc p Hp). apply andb_true_iff in Hc. destruct Hc as [_ Hc].
  rewrite forallb_forall in Hc.
  specialize (Hc k (in_range_elems (mkrange 1 22) k ltac:(simpl; lia))).
  unfold round_trip in Hc.
  destruct (aqi_to_concentration p (of_int k)) as [[z|c]|e]; try discriminate.
  exists c. split; [reflexivity|].
  destruct (concentration_to_aqi p c) as [[i|f]|e]; try discriminate.
  apply Z.eqb_eq in Hc. now subst.
Qed.

Lemma round_trip_first_class_shifts_witness :
  exists c, aqi_to_concentration "pm25" (of_int 10) = Ok (Float c) /\
            concentration_to_aqi "pm25" c = Ok (Int (10 + 1)).
Proof.
  apply (round_trip_first_class_shifts "pm25" 10).
  - simpl. auto.
  - lia.
Defined.

End ConverterMore.

(* ================================================================= *)
(** ** The alignment: order, contents and size of the table *)

Section AlignmentMore.
Import Py merge_daily_data.

(** *** The order of the output *)

Lemma ascii_compare_trans a b c :
  Ascii.compare a b = Lt -> Ascii.compare b c = Lt -> Ascii.compare a c = Lt.
Proof.
  unfold Ascii.compare. rewrite !N.compare_lt_iff. apply N.lt_trans.
Qed.

Lemma string_compare_trans s1 : forall s2 s3,
  String.compare s1 s2 = Lt -> String.compare s2 s3 = Lt ->
  String.compare s1 s3 = Lt.
Proof.
  induction s1 as [|a s1 IH]; intros [|b s2] [|c s3]; simpl; try discriminate; auto.
  destruct (Ascii.compare a b) eqn:Eab; try discriminate;
    destruct (Ascii.compare b c) eqn:Ebc; try discriminate; intros H1 H2.
  - apply Ascii.compare_eq_iff in Eab, Ebc. subst.
    rewrite (proj2 (N.compare_eq_iff _ _) eq_refl : Ascii.compare c c = Eq).
    eauto.
  - apply Ascii.compare_eq_iff in Eab. subst. now rewrite Ebc.
  - apply Ascii.compare_eq_iff in Ebc. subst. now rewrite Eab.
  - now rewrite (ascii_compare_trans _ _ _ Eab Ebc).
Qed.

Lemma row_leb_trans x y z :
  RowOrder.leb x y = true -> RowOrder.leb y z = true -> RowOrder.leb x z = true.
Proof.
  unfold RowOrder.leb.
  destruct (String.compare (stasiun x) (stasiun y)) eqn:Exy; try discriminate;
    destruct (String.compare (stasiun y) (stasiun z)) eqn:Eyz; try discriminate;
    intros H1 H2.
  - apply String.compare_eq_iff in Exy, Eyz. rewrite Exy, Eyz.
    replace (String.compare (stasiun z) (stasiun z)) with Eq.
    + apply Z.leb_le. apply Z.leb_le in H1, H2. lia.
    + symmetry. clear. induction (stasiun z) as [|c s IH]; simpl; [reflexivity|].
      now rewrite (proj2 (N.compare_eq_iff _ _) eq_refl : Ascii.compare c c = Eq).
  - apply String.compare_eq_iff in Exy. rewrite Exy, Eyz. reflexivity.
  - apply String.compare_eq_iff in Eyz. rewrite <- Eyz, Exy. reflexivity.
  - now rewrite (string_compare_trans _ _ _ Exy Eyz).
Qed.

Lemma sort_strongly_sorted l :
  StronglySorted (fun x y => RowOrder.leb x y = true) (RowSort.sort l).
Proof.
  apply RowSort.StronglySorted_sort.
  intros x y z. apply row_leb_trans.
Qed.

Lemma strongly_sorted_nth {A} (R : A -> A -> Prop) l :
  StronglySorted R l ->
  forall i j x y, (i < j)%nat -> nth_error l i = Some x -> nth_error l j = Some y ->
  R x y.
Proof.
  induction 1 as [|a l Hs IH Ha]; intros i j x y Hij Hi Hj.
  - destruct i; discriminate.
  - destruct j as [|j]; [lia|]. simpl in Hj.
    destruct i as [|i]; simpl in Hi.
    + inversion Hi; subst. rewrite Forall_forall in Ha. apply Ha.
      eapply nth_error_In; eauto.
    + apply (IH i j); auto. lia.
Qed.

(** Property X9.  The aligned table is in the order of [sort_values]: of two
    rows, the earlier one has the smaller station name, or the same station
    and a day that is not later. *)
Theorem alignment_sorted stations raw i j x y :
  (i < j)%nat ->
  nth_error (load_and_process_aqi_raw_data stations raw) i = Some x ->
  nth_error (load_and_process_aqi_raw_data stations raw) j = Some y ->
  String.compare (stasiun x) (stasiun y) = Lt \/
  (stasiun x = stasiun y /\ tanggal x <= tanggal y).
Proof.
  intros Hij Hi Hj.
  pose proof (strongly_sorted_nth _ _ (sort_strongly_sorted _) i j x y Hij Hi Hj) as H.
  unfold RowOrder.leb in H.
  destruct (String.compare (stasiun x) (stasiun y)) eqn:E; try discriminate.
  - right. split; [now apply String.compare_eq_iff|now apply Z.leb_le].
  - now left.
Qed.

Lemma alignment_sorted_witness :
  String.compare "DKI1 (Bunderan HI)" "DKI3 (Jagakarsa)" = Lt \/
  ("DKI1 (Bunderan HI)"%string = "DKI3 (Jagakarsa)"%string /\ 15001 <= 15000).
Proof.
  apply (alignment_sorted []
           [mkrow 15000 "DKI3 (Jagakarsa)" 1 2 3 4 5 6;
            mkrow 15001 "DKI1 (Bunderan HI)" 1 2 3 4 5 6]
           0 1 (mkrow 15001 "DKI1 (Bunderan HI)" 1 2 3 4 5 6)
               (mkrow 15000 "DKI3 (Jagakarsa)" 1 2 3 4 5 6)).
  - lia.
  - reflexivity.
  - reflexivity.
Defined.

(** *** What the rows hold *)

Lemma in_load stations raw r :
  In r (load_and_process_aqi_raw_data stations raw) <->
  exists r0, r = clear_pm25 r0 /\
    (In r0 (map replace_station raw) \/
     In r0 (unavailable_dates stations (map replace_station raw))).
Proof.
  unfold load_and_process_aqi_raw_data. split.
  - intros H.
    apply (Permutation_in _ (Permutation_sym (RowSort.Permuted_sort _))) in H.
    apply in_map_iff in H. destruct H as (r0 & <- & H).
    exists r0. split; [reflexivity|]. now apply in_app_or.
  - intros (r0 & -> & H).
    apply (Permutation_in _ (RowSort.Permuted_sort _)).
    apply in_map. now apply in_or_app.
Qed.

Lemma in_unavailable stations tbl r :
  In r (unavailable_dates stations tbl) ->
  exists s d, In s stations /\ range_start <= d <= range_end /\
    existsb (Z.eqb d) (dates_of s tbl) = false /\
    r = mkrow d s nan nan nan nan nan nan.
Proof.
  unfold unavailable_dates, unavailable_date_dataframe, difference.
  intros H. apply in_flat_map in H. destruct H as (s & Hs & H).
  apply in_map_iff in H. destruct H as (d & <- & H).
  apply filter_In in H. destruct H as [Hd Hn].
  exists s, d. repeat split; auto.
  - unfold date_range in Hd. apply in_map_iff in Hd.
    destruct Hd as (i & <- & _). lia.
  - unfold date_range in Hd. apply in_map_iff in Hd.
    destruct Hd as (i & <- & Hi). apply in_seq in Hi. lia.
  - now apply negb_true_iff.
Qed.

Lemma load_pm25_cleared stations raw r :
  In r (load_and_process_aqi_raw_data stations raw) ->
  stasiun r <> "DKI1 (Bunderan HI)"%string ->
  stasiun r <> "DKI3 (Jagakarsa)"%string ->
  isnan (pm25_ugm3 r) = true.
Proof.
  intros H H1 H3. apply in_load in H. destruct H as (r0 & -> & _).
  unfold clear_pm25 in *.
  destruct (String.eqb_spec (stasiun r0) "DKI1 (Bunderan HI)") as [E|_];
    [simpl in H1; contradiction|].
  destruct (String.eqb_spec (stasiun r0) "DKI3 (Jagakarsa)") as [E|_];
    [simpl in H3; contradiction|].
  reflexivity.
Qed.

(** Property X10.  After the alignment the PM2.5 cell of every row is
    missing, except in rows of the stations DKI1 (Bunderan HI) and DKI3
    (Jagakarsa). *)
Theorem alignment_clears_pm25 stations raw r :
  In r (load_and_process_aqi_raw_data stations raw) ->
  stasiun r <> "DKI1 (Bunderan HI)"%string ->
  stasiun r <> "DKI3 (Jagakarsa)"%string ->
  isnan (pm25_ugm3 r) = true.
Proof. exact (load_pm25_cleared stations raw r). Qed.

Lemma alignment_clears_pm25_witness :
  isnan (pm25_ugm3 (mkrow 15000 "DKI2 (Kelapa Gading)" nan 2 3 4 5 6)) = true.
Proof.
  apply (alignment_clears_pm25 []
           [mkrow 15000 "DKI2 (Kelapa Gading)" 1 2 3 4 5 6]).
  - vm_compute. auto.
  - discriminate.
  - discriminate.
Defined.

Lemma count_rows_zero_in s d tbl r :
  count_rows s d tbl = 0%nat -> In r tbl -> stasiun r = s -> tanggal r = d -> False.
Proof.
  unfold count_rows. intros H Hin Hs Hd.
  assert (Hf : In r (filter (fun r => String.eqb (stasiun r) s && (tanggal r =? d)) tbl)).
  { apply filter_In. split; [assumption|].
    rewrite Hs, Hd, String.eqb_refl, Z.eqb_refl. reflexivity. }
  destruct (filter _ tbl); [contradiction|discriminate].
Qed.

(** Property X11.  A row the alignment holds for a station and a day for
    which the raw table has no row is an inserted one: its six numeric cells
    are all missing. *)
Theorem alignment_inserts_missing_rows stations raw s d r :
  count_rows s d (map replace_station raw) = 0%nat ->
  In r (load_and_process_aqi_raw_data stations raw) ->
  stasiun r = s -> tanggal r = d ->
  r = mkrow d s nan nan nan nan nan nan.
Proof.
  intros Hc H Hs Hd. apply in_load in H. destruct H as (r0 & -> & [H|H]).
  - exfalso. destruct (clear_pm25_keys r0) as [Es Ed].
    apply (count_rows_zero_in s d _ r0 Hc H); congruence.
  - apply in_unavailable in H. destruct H as (s' & d' & _ & _ & _ & ->).
    unfold clear_pm25 in *. simpl in *.
    destruct (negb _ && negb _); simpl in Hs, Hd; subst; reflexivity.
Qed.

Lemma alignment_inserts_missing_rows_witness :
  mkrow (days_from_civil 2010 1 1) "DKI1 (Bunderan HI)" nan nan nan nan nan nan
  = mkrow (days_from_civil 2010 1 1) "DKI1 (Bunderan HI)" nan nan nan nan nan nan.
Proof.
  apply (alignment_inserts_missing_rows ["DKI1 (Bunderan HI)"%string]
           [mkrow (days_from_civil 2010 1 2) "DKI1 (Bunderan HI)" 1 2 3 4 5 6]
           "DKI1 (Bunderan HI)" (days_from_civil 2010 1 1)).
  - reflexivity.
  - apply (proj2 (in_load ["DKI1 (Bunderan HI)"%string]
             [mkrow (days_from_civil 2010 1 2) "DKI1 (Bunderan HI)" 1 2 3 4 5 6]
             (mkrow (days_from_civil 2010 1 1) "DKI1 (Bunderan HI)"
                nan nan nan nan nan nan))).
    exists (mkrow (days_from_civil 2010 1 1) "DKI1 (Bunderan HI)"
              nan nan nan nan nan nan).
    split; [reflexivity|]. right.
    apply in_flat_map. exists "DKI1 (Bunderan HI)"%string.
    split; [now left|]. apply (in_map (fun d => mkrow d "DKI1 (Bunderan HI)" nan nan nan nan nan nan)). apply filter_In. split; [|reflexivity].
    apply in_map_iff. exists 0%nat. split; [reflexivity|].
    apply in_seq. vm_compute. split; [apply le_n|apply le_n_S, Nat.le_0_l].
  - reflexivity.
  - reflexivity.
Defined.

Lemma count_unavailable_off_range s d stations tbl :
  d < range_start \/ range_end < d ->
  count_rows s d (unavailable_dates stations tbl) = 0%nat.
Proof.
  intros Hd. unfold count_rows.
  destruct (filter _ _) as [|r l] eqn:E; [reflexivity|exfalso].
  assert (Hin : In r (r :: l)) by now left.
  rewrite <- E in Hin. apply filter_In in Hin. destruct Hin as [Hin Hk].
  apply in_unavailable in Hin. destruct Hin as (s' & d' & _ & Hr & _ & ->).
  simpl in Hk. apply andb_true_iff in Hk. destruct Hk as [_ Hk].
  apply Z.eqb_eq in Hk. lia.
Qed.

(** Property X12.  Outside the grid the alignment neither adds nor removes
    rows: for a station that is not in the station list, or a day outside
    2010-01-01..2021-12-31, the table holds as many rows as the renamed raw
    table. *)
Theorem alignment_keeps_rows_off_grid stations raw s d :
  ~ In s stations \/ d < range_start \/ range_end < d ->
  count_rows s d (load_and_process_aqi_raw_data stations raw)
  = count_rows s d (map replace_station raw).
Proof.
  intros H. unfold load_and_process_aqi_raw_data.
  rewrite <- (count_rows_perm s d _ _ (RowSort.Permuted_sort _)).
  rewrite (count_rows_map s d clear_pm25 _ clear_pm25_keys).
  rewrite count_rows_app.
  destruct H as [H|H].
  - rewrite (count_unavailable_absent s d stations _ H). lia.
  - rewrite (count_unavailable_off_range s d stations _ H). lia.
Qed.

Lemma alignment_keeps_rows_off_grid_witness :
  count_rows "DKI1 (Bunderan HI)" (days_from_civil 2022 1 1)
    (load_and_process_aqi_raw_data measurement_stations
       [mkrow (days_from_civil 2022 1 1) "DKI1 (Bunderan HI)" 1 2 3 4 5 6])
  = 1%nat.
Proof.
  apply (alignment_keeps_rows_off_grid measurement_stations
           [mkrow (days_from_civil 2022 1 1) "DKI1 (Bunderan HI)" 1 2 3 4 5 6]
           "DKI1 (Bunderan HI)" (days_from_civil 2022 1 1)).
  right. right. vm_compute. reflexivity.
Defined.

(** Property X13.  No raw row is lost: every row read is in the aligned
    table, with the station renamed and the PM2.5 cell cleared where the
    rules say so, and the table has one more row for every inserted day. *)
Theorem alignment_keeps_raw_rows stations raw :
  (forall r, In r raw ->
     In (clear_pm25 (replace_station r))
        (load_and_process_aqi_raw_data stations raw)) /\
  List.length (load_and_process_aqi_raw_data stations raw)
  = (List.length raw
     + List.length (unavailable_dates stations (map replace_station raw)))%nat.
Proof.
  split.
  - intros r Hr. apply in_load. exists (replace_station r).
    split; [reflexivity|]. left. now apply in_map.
  - unfold load_and_process_aqi_raw_data.
    rewrite <- (Permutation_length (RowSort.Permuted_sort _)).
    now rewrite length_map, length_app, length_map.
Qed.

(** Property X14.  With the long name of station DKI5 absent from the
    station list, no row of the aligned table carries it: the rows read
    under it are renamed. *)
Theorem alignment_renames_dki5 stations raw r :
  ~ In "DKI5 (Kebon Jeruk) Jakarta Barat"%string stations ->
  In r (load_and_process_aqi_raw_data stations raw) ->
  stasiun r <> "DKI5 (Kebon Jeruk) Jakarta Barat"%string.
Proof.
  intros Hs H. apply in_load in H. destruct H as (r0 & -> & H).
  destruct (clear_pm25_keys r0) as [-> _].
  destruct H as [H|H].
  - apply in_map_iff in H. destruct H as (r1 & <- & _).
    unfold replace_station.
    destruct (String.eqb_spec (stasiun r1) "DKI5 (Kebon Jeruk) Jakarta Barat");
      [discriminate|assumption].
  - apply in_unavailable in H. destruct H as (s' & d' & Hin & _ & _ & ->).
    simpl. intros E. apply Hs. now rewrite <- E.
Qed.

Lemma alignment_renames_dki5_witness :
  stasiun (mkrow 15000 "DKI5 (Kebon Jeruk)" nan 2 3 4 5 6)
  <> "DKI5 (Kebon Jeruk) Jakarta Barat"%string.
Proof.
  apply (alignment_renames_dki5 []
           [mkrow 15000 "DKI5 (Kebon Jeruk) Jakarta Barat" 1 2 3 4 5 6]).
  - simpl. auto.
  - vm_compute. auto.
Defined.

End AlignmentMore.

Section Grid.
Import Py merge_daily_data.












End Grid.

(* ================================================================= *)
(** ** The category column and the dominant pollutant *)

Section DailyMore.
Import Py merge_daily_data Wf.
#[local] Open Scope float_scope.

Lemma category_loop_negative m :
  (m < 0)%Z -> category_loop m kategori_ispu = None.
Proof.
  intros H. rewrite category_loop_spec. unfold Spec.category. zbool. reflexivity.
Qed.

Lemma categori_length maxs :
  List.length (categori maxs)
  = List.length (filter (fun m => (0 <=? m)%Z) maxs).
Proof.
  induction maxs as [|m maxs IH]; [reflexivity|]. cbn [categori filter].
  destruct (Z.leb_spec 0 m) as [Hm|Hm].
  - rewrite category_loop_spec.
    destruct (category_nonneg m Hm) as [c ->]. simpl. now rewrite IH.
  - now rewrite (category_loop_negative m Hm).
Qed.

(** Property X16.  The list of categories has one label for every row whose
    composite index is not negative and none for the others; so when some
    index is negative the list is shorter than the table, and the last row
    is left without a category. *)
Theorem categori_skips_negative maxs :
  List.length (categori maxs)
  = List.length (filter (fun m => (0 <=? m)%Z) maxs) /\
  (Exists (fun m => (m < 0)%Z) maxs ->
   categori_column maxs (List.length maxs - 1) = None).
Proof.
  split; [apply categori_length|].
  intros Hex. unfold categori_column. apply nth_error_None.
  rewrite categori_length.
  assert (H : (List.length (filter (fun m => (0 <=? m)%Z) maxs)
               < List.length maxs)%nat).
  { induction Hex as [m l Hm|m l Hex IH]; cbn [filter].
    - rewrite (proj2 (Z.leb_gt 0 m) Hm). simpl.
      pose proof (filter_length_le (fun m => (0 <=? m)%Z) l). lia.
    - destruct (0 <=? m)%Z; simpl; lia. }
  lia.
Qed.

Lemma categori_skips_negative_witness :
  categori_column [10; -1; 60]%Z (List.length [10; -1; 60]%Z - 1) = None.
Proof.
  apply (proj2 (categori_skips_negative [10; -1; 60]%Z)).
  apply Exists_cons_tl, Exists_cons_hd. lia.
Defined.

Lemma argmax_in cells : forall best l v,
  argmax best cells = Some (l, v) ->
  best = Some (l, v) \/ In (l, v) cells.
Proof.
  induction cells as [|[l1 x] cells IH]; intros best l v; simpl; [auto|].
  destruct (isnan x).
  - intros H. destruct (IH _ _ _ H); auto.
  - destruct best as [[lb b]|].
    + destruct (b <? x); intros H; destruct (IH _ _ _ H) as [E|E]; auto.
      inversion E; auto.
    + intros H. destruct (IH _ _ _ H) as [E|E]; auto. inversion E; auto.
Qed.

(** Property X17.  The dominant pollutant, when a row has one, is one of the
    six upper-cased column labels "PM25", "PM10", "SO2", "CO", "O3", "NO2". *)
Theorem critical_is_a_column_label r label :
  critical_column r = Some label ->
  In label ["PM25"; "PM10"; "SO2"; "CO"; "O3"; "NO2"]%string.
Proof.
  unfold critical_column. rewrite idxmax_argmax.
  destruct (argmax None (columns r)) as [[l v]|] eqn:E; [|discriminate].
  simpl. intros H. inversion H; subst label.
  destruct (argmax_in _ _ _ _ E) as [E'|Hin]; [discriminate|].
  simpl in Hin.
  repeat (destruct Hin as [E'|Hin]; [inversion E'; simpl; auto 10|]).
  contradiction.
Qed.

Lemma critical_is_a_column_label_witness :
  In "O3"%string ["PM25"; "PM10"; "SO2"; "CO"; "O3"; "NO2"]%string.
Proof.
  apply (critical_is_a_column_label (mksub 1 2 3 4 9 6) "O3").
  vm_compute. reflexivity.
Defined.

End DailyMore.

(* ================================================================= *)
(** ** The merge of the PM2.5 frames *)

Section Merge.
Import Py aqi_formulation merge_daily_data merge_pm25.
#[local] Open Scope float_scope.

Lemma comprehension_ok {A B} (f : A -> res B) l : forall bs,
  comprehension f l = Ok bs <-> Forall2 (fun a b => f a = Ok b) l bs.
Proof.
  induction l as [|a l IH]; intros bs; simpl.
  - split; intros H; inversion H; auto.
  - destruct (f a) as [b|e] eqn:Ea; cbn [bind].
    + destruct (comprehension f l) as [bs'|e] eqn:El; cbn [bind].
      * split; intros H.
        -- inversion H; subst. constructor; [assumption|now apply IH].
        -- inversion H as [|? b0 ? bs0 Hb Hbs]; subst.
           apply IH in Hbs. congruence.
      * split; intros H; [discriminate|].
        inversion H as [|? b0 ? bs0 Hb Hbs]; subst.
        apply IH in Hbs. discriminate.
    + split; intros H; [discriminate|].
      inversion H; subst. congruence.
Qed.

Lemma comprehension_raises {A B} (f : A -> res B) l a e :
  In a l -> f a = Raise e -> exists e', comprehension f l = Raise e'.
Proof.
  induction l as [|a0 l IH]; intros Hin Hf; [contradiction|]. simpl.
  destruct (f a0) as [b|e0] eqn:Ea; cbn [bind]; [|eauto].
  destruct Hin as [->|Hin]; [congruence|].
  destruct (IH Hin Hf) as [e' ->]. cbn [bind]. eauto.
Qed.

Lemma comprehension_total {A B} (f : A -> res B) l :
  (forall a, In a l -> exists b, f a = Ok b) ->
  exists bs, comprehension f l = Ok bs.
Proof.
  induction l as [|a l IH]; intros H; simpl; [eauto|].
  destruct (H a (or_introl eq_refl)) as [b ->]. cbn [bind].
  destruct IH as [bs ->]; [intros; apply H; now right|]. cbn [bind]. eauto.
Qed.

Lemma assemble_rows tbl : forall c25 c10 cso2 cco co3 cno2,
  Forall2 (fun a b => concentration_to_aqi "pm25" a = Ok b) (map pm25_ugm3 tbl) c25 ->
  Forall2 (fun a b => aqi_to_concentration "pm10" a = Ok b) (map pm10 tbl) c10 ->
  Forall2 (fun a b => aqi_to_concentration "so2" a = Ok b) (map so2 tbl) cso2 ->
  Forall2 (fun a b => aqi_to_concentration "co" a = Ok b) (map co tbl) cco ->
  Forall2 (fun a b => aqi_to_concentration "o3" a = Ok b) (map o3 tbl) co3 ->
  Forall2 (fun a b => aqi_to_concentration "no2" a = Ok b) (map no2 tbl) cno2 ->
  Forall2 (fun r m => derive r = Ok m) tbl
          (assemble tbl c25 c10 cso2 cco co3 cno2).
Proof.
  induction tbl as [|r tbl IH]; intros c25 c10 cso2 cco co3 cno2 H1 H2 H3 H4 H5 H6.
  - constructor.
  - simpl in H1, H2, H3, H4, H5, H6.
    inversion H1 as [|? a ? c25' Ha H1']; subst.
    inversion H2 as [|? b ? c10' Hb H2']; subst.
    inversion H3 as [|? c ? cso2' Hc H3']; subst.
    inversion H4 as [|? d ? cco' Hd H4']; subst.
    inversion H5 as [|? e ? co3' He H5']; subst.
    inversion H6 as [|? g ? cno2' Hg H6']; subst.
    cbn [assemble]. constructor; [|now apply IH].
    unfold derive. rewrite Ha, Hb, Hc, Hd, He, Hg. reflexivity.
Qed.

Lemma derive_columns_rows tbl out :
  derive_columns tbl = Ok out ->
  Forall2 (fun r m => derive r = Ok m) tbl out.
Proof.
  unfold derive_columns. intros H.
  repeat match type of H with
  | (bind (comprehension ?f ?l) _) = _ =>
      let E := fresh "E" in
      destruct (comprehension f l) eqn:E; cbn [bind] in H; [|discriminate]
  end.
  inversion H; subst out.
  apply assemble_rows; now apply comprehension_ok.
Qed.

Lemma derive_columns_raises tbl r e :
  In r tbl -> derive r = Raise e -> exists e', derive_columns tbl = Raise e'.
Proof.
  intros Hin Hd. unfold derive_columns.
  unfold derive in Hd.
  repeat match goal with
  | |- exists e', (bind (comprehension ?f (map ?g tbl)) _) = _ =>
      destruct (f (g r)) eqn:?;
      [ cbn [bind] in Hd;
        destruct (comprehension f (map g tbl)); cbn [bind]; [|eauto]
      | destruct (comprehension_raises f (map g tbl) (g r) e0
                    (in_map g tbl r Hin)) as [e' ->]; [assumption|];
        cbn [bind]; eauto ]
  end.
  discriminate.
Qed.

(** *** What the update changes *)

Lemma update_keeps f s tbl r' :
  In r' (update f s tbl) ->
  exists r, In r tbl /\ tanggal r' = tanggal r /\ stasiun r' = stasiun r /\
    pm10 r' = pm10 r /\ so2 r' = so2 r /\ co r' = co r /\ o3 r' = o3 r /\
    no2 r' = no2 r /\
    (pm25_ugm3 r' = pm25_ugm3 r \/
     stasiun r = s /\ isnan (reindex f (tanggal r)) = false /\
     pm25_ugm3 r' = reindex f (tanggal r)) /\
    (stasiun r = s -> isnan (reindex f (tanggal r)) = false ->
     pm25_ugm3 r' = reindex f (tanggal r)).
Proof.
  unfold update. intros H. apply in_map_iff in H. destruct H as (r & <- & Hin).
  exists r. split; [assumption|].
  destruct (String.eqb_spec (stasiun r) s) as [Es|Es]; cbn [negb orb].
  - destruct (isnan (reindex f (tanggal r))) eqn:En; cbn [negb orb].
    + repeat split; auto. congruence.
    + simpl. repeat split; auto.
  - repeat split; auto. contradiction.
Qed.

Lemma update_covers f s tbl r :
  In r tbl ->
  exists r', In r' (update f s tbl) /\ tanggal r' = tanggal r /\
    stasiun r' = stasiun r /\ pm10 r' = pm10 r /\ so2 r' = so2 r /\
    co r' = co r /\ o3 r' = o3 r /\ no2 r' = no2 r.
Proof.
  intros Hin. unfold update.
  eexists. split; [apply in_map; exact Hin|].
  destruct (negb _ || _); simpl; repeat split; reflexivity.
Qed.

Lemma update_keys f s tbl :
  map (fun r => (stasiun r, tanggal r)) (update f s tbl)
  = map (fun r => (stasiun r, tanggal r)) tbl.
Proof.
  unfold update. rewrite map_map. apply map_ext. intros r.
  now destruct (negb _ || _).
Qed.

Lemma updated_keys input stations tbl upd :
  updated input stations tbl = Some upd ->
  map (fun r => (stasiun r, tanggal r)) upd
  = map (fun r => (stasiun r, tanggal r)) tbl.
Proof.
  destruct input as [f|fs]; simpl.
  - intros H. inversion H; subst upd; clear H. unfold update_each.
    revert tbl. induction stations as [|s stations IH]; intros tbl; [reflexivity|].
    simpl. rewrite IH. apply update_keys.
  - revert stations tbl. induction fs as [|f fs IH]; intros stations tbl; simpl.
    + intros H. now inversion H.
    + destruct stations as [|s stations]; [discriminate|].
      intros H. rewrite (IH _ _ H). apply update_keys.
Qed.

Lemma updated_covers input stations tbl upd r :
  updated input stations tbl = Some upd -> In r tbl ->
  exists r', In r' upd /\ pm10 r' = pm10 r /\ so2 r' = so2 r /\
    co r' = co r /\ o3 r' = o3 r /\ no2 r' = no2 r.
Proof.
  assert (Hstep : forall f s t,
    (exists r', In r' t /\ pm10 r' = pm10 r /\ so2 r' = so2 r /\
       co r' = co r /\ o3 r' = o3 r /\ no2 r' = no2 r) ->
    exists r', In r' (update f s t) /\ pm10 r' = pm10 r /\ so2 r' = so2 r /\
       co r' = co r /\ o3 r' = o3 r /\ no2 r' = no2 r).
  { intros f s t (r1 & Hin & H1 & H2 & H3 & H4 & H5).
    destruct (update_covers f s t r1 Hin)
      as (r2 & Hin2 & _ & _ & E1 & E2 & E3 & E4 & E5).
    exists r2. repeat split; congruence. }
  intros Hu Hin.
  assert (H0 : exists r', In r' tbl /\ pm10 r' = pm10 r /\ so2 r' = so2 r /\
       co r' = co r /\ o3 r' = o3 r /\ no2 r' = no2 r) by (exists r; auto 10).
  clear Hin. revert Hu H0.
  destruct input as [f|fs]; simpl.
  - intros H. inversion H; subst upd; clear H. unfold update_each.
    revert tbl. induction stations as [|s stations IH]; intros tbl H0; [assumption|].
    simpl. apply IH. now apply Hstep.
  - revert stations tbl. induction fs as [|f fs IH]; intros stations tbl; simpl.
    + intros H. now inversion H.
    + destruct stations as [|s stations]; [discriminate|].
      intros H H0. apply (IH _ _ H). now apply Hstep.
Qed.

Lemma merge_done input tbl stations out :
  merge_pm25_aqi_raw_data input tbl stations = Done out ->
  exists upd, updated input stations tbl = Some upd /\
    Forall2 (fun r m => derive r = Ok m) (RowSort.sort upd) out.
Proof.
  unfold merge_pm25_aqi_raw_data.
  destruct (updated input stations tbl) as [upd|]; [|discriminate].
  destruct (derive_columns (RowSort.sort upd)) as [o|e] eqn:E; [|discriminate].
  intros H. inversion H; subst o. exists upd. split; [reflexivity|].
  now apply derive_columns_rows.
Qed.

Lemma derive_cells r m :
  derive r = Ok m ->
  m_tanggal m = tanggal r /\ m_stasiun m = stasiun r /\
  m_pm25_ugm3 m = pm25_ugm3 r /\ m_pm10 m = pm10 r /\ m_so2 m = so2 r /\
  m_co m = co r /\ m_o3 m = o3 r /\ m_no2 m = no2 r /\
  exists a b c d e g,
    concentration_to_aqi "pm25" (pm25_ugm3 r) = Ok a /\ m_pm25 m = to_float a /\
    aqi_to_concentration "pm10" (pm10 r) = Ok b /\ m_pm10_ugm3 m = to_float b /\
    aqi_to_concentration "so2" (so2 r) = Ok c /\ m_so2_ugm3 m = to_float c /\
    aqi_to_concentration "co" (co r) = Ok d /\ m_co_ugm3 m = to_float d /\
    aqi_to_concentration "o3" (o3 r) = Ok e /\ m_o3_ugm3 m = to_float e /\
    aqi_to_concentration "no2" (no2 r) = Ok g /\ m_no2_ugm3 m = to_float g.
Proof.
  unfold derive. intros H.
  destruct (concentration_to_aqi "pm25" (pm25_ugm3 r)) as [a|] eqn:Ea; [|discriminate].
  destruct (aqi_to_concentration "pm10" (pm10 r)) as [b|] eqn:Eb; [|discriminate].
  destruct (aqi_to_concentration "so2" (so2 r)) as [c|] eqn:Ec; [|discriminate].
  destruct (aqi_to_concentration "co" (co r)) as [d|] eqn:Ed; [|discriminate].
  destruct (aqi_to_concentration "o3" (o3 r)) as [e|] eqn:Ee; [|discriminate].
  destruct (aqi_to_concentration "no2" (no2 r)) as [g|] eqn:Eg; [|discriminate].
  cbn [bind] in H. inversion H; subst m; clear H. simpl.
  repeat (split; [reflexivity|]).
  exists a, b, c, d, e, g. repeat split; reflexivity.
Qed.

Lemma forall2_in_r {A B} (R : A -> B -> Prop) l l' b :
  Forall2 R l l' -> In b l' -> exists a, In a l /\ R a b.
Proof.
  induction 1 as [|a0 b0 l l' H0 _ IH]; intros Hin; [contradiction|].
  destruct Hin as [->|Hin]; [exists a0; split; [now left|assumption]|].
  destruct (IH Hin) as (a & Ha & HR). exists a. split; [now right|assumption].
Qed.

Lemma forall2_map_eq {A B C} (R : A -> B -> Prop) (f : A -> C) (g : B -> C) l l' :
  Forall2 R l l' -> (forall a b, R a b -> g b = f a) -> map g l' = map f l.
Proof.
  induction 1 as [|a b l l' H0 _ IH]; intros Hfg; [reflexivity|].
  simpl. now rewrite (Hfg a b H0), IH.
Qed.

(** Property X18.  When the merge, given frames of distinct days, returns a
    table, the table has a row for every row of the input, with the same
    station and day, and every derived cell of a row is the conversion of
    the cell beside it: the PM2.5 index is [concentration_to_aqi('pm25',
    ...)] of the PM2.5 concentration, and the concentration of each other
    pollutant is [aqi_to_concentration] of its index. *)
Theorem merge_derives_each_row input tbl stations out :
  Forall unique_days (frames input) ->
  merge_pm25_aqi_raw_data input tbl stations = Done out ->
  Permutation (map (fun m => (m_stasiun m, m_tanggal m)) out)
              (map (fun r => (stasiun r, tanggal r)) tbl) /\
  forall m, In m out ->
    exists a b c d e g,
      concentration_to_aqi "pm25" (m_pm25_ugm3 m) = Ok a /\ m_pm25 m = to_float a /\
      aqi_to_concentration "pm10" (m_pm10 m) = Ok b /\ m_pm10_ugm3 m = to_float b /\
      aqi_to_concentration "so2" (m_so2 m) = Ok c /\ m_so2_ugm3 m = to_float c /\
      aqi_to_concentration "co" (m_co m) = Ok d /\ m_co_ugm3 m = to_float d /\
      aqi_to_concentration "o3" (m_o3 m) = Ok e /\ m_o3_ugm3 m = to_float e /\
      aqi_to_concentration "no2" (m_no2 m) = Ok g /\ m_no2_ugm3 m = to_float g.
Proof.
  intros _ H. destruct (merge_done _ _ _ _ H) as (upd & Hu & HF). split.
  - rewrite (forall2_map_eq _ (fun r => (stasiun r, tanggal r))
               (fun m => (m_stasiun m, m_tanggal m)) _ _ HF).
    + rewrite <- (updated_keys _ _ _ _ Hu).
      apply Permutation_map, Permutation_sym, RowSort.Permuted_sort.
    + intros r m Hd. destruct (derive_cells r m Hd) as (-> & -> & _). reflexivity.
  - intros m Hm. destruct (forall2_in_r _ _ _ _ HF Hm) as (r & _ & Hd).
    destruct (derive_cells r m Hd)
      as (_ & _ & E25 & E10 & Eso2 & Eco & Eo3 & Eno2 & a & b & c & d & e & g & Hc).
    exists a, b, c, d, e, g.
    rewrite E25, E10, Eso2, Eco, Eo3, Eno2. exact Hc.
Qed.

Lemma merge_derives_each_row_witness :
  exists a,
    concentration_to_aqi "pm25" 10 = Ok a /\ 33 = to_float a.
Proof.
  destruct (proj2 (merge_derives_each_row (Many [])
                     [mkrow 15000 "DKI1 (Bunderan HI)" 10 40 41 42 43 44]
                     pm25_stations
                     [mkmerged 15000 "DKI1 (Bunderan HI)" 10 33 40 40 42.6 41
                        3360 42 103.2 43 70.4 44]
                     (Forall_nil _)
                     ltac:(vm_compute; reflexivity))
             (mkmerged 15000 "DKI1 (Bunderan HI)" 10 33 40 40 42.6 41
                        3360 42 103.2 43 70.4 44)
             (or_introl eq_refl))
    as (a & _ & _ & _ & _ & _ & Ha & Hm & _).
  exists a. split; assumption.
Defined.

Lemma updated_sources input stations tbl upd r' :
  updated input stations tbl = Some upd -> In r' upd ->
  exists r, In r tbl /\ tanggal r' = tanggal r /\ stasiun r' = stasiun r /\
    (~ In (stasiun r) stations -> pm25_ugm3 r' = pm25_ugm3 r).
Proof.
  assert (Hstep : forall f s t stations0,
    (forall r1, In r1 t ->
       exists r, In r tbl /\ tanggal r1 = tanggal r /\ stasiun r1 = stasiun r /\
         (~ In (stasiun r) stations0 -> pm25_ugm3 r1 = pm25_ugm3 r)) ->
    forall r1, In r1 (update f s t) ->
       exists r, In r tbl /\ tanggal r1 = tanggal r /\ stasiun r1 = stasiun r /\
         (~ In (stasiun r) (s :: stations0) -> pm25_ugm3 r1 = pm25_ugm3 r)).
  { intros f s t stations0 Ht r1 Hin.
    destruct (update_keeps f s t r1 Hin)
      as (r0 & Hin0 & Ed & Es & _ & _ & _ & _ & _ & Hpm & _).
    destruct (Ht r0 Hin0) as (r & Hr & Ed0 & Es0 & Hk).
    exists r. repeat split; try congruence.
    intros Hn. destruct Hpm as [E|(Es1 & _ & _)].
    - rewrite E. apply Hk. intros H. apply Hn. now right.
    - exfalso. apply Hn. left. congruence. }
  assert (Hgen_each : forall f stations1 used t,
    (forall r1, In r1 t ->
       exists r, In r tbl /\ tanggal r1 = tanggal r /\ stasiun r1 = stasiun r /\
         (~ In (stasiun r) used -> pm25_ugm3 r1 = pm25_ugm3 r)) ->
    forall r1, In r1 (update_each f stations1 t) ->
       exists r, In r tbl /\ tanggal r1 = tanggal r /\ stasiun r1 = stasiun r /\
         (~ In (stasiun r) (rev stations1 ++ used) -> pm25_ugm3 r1 = pm25_ugm3 r)).
  { intros f stations1. induction stations1 as [|s stations1 IH]; intros used t Ht.
    - exact Ht.
    - simpl. intros r1 Hin.
      destruct (IH (s :: used) (update f s t) (Hstep f s t used Ht) r1 Hin)
        as (r & Hr & Ed & Es & Hk).
      exists r. repeat split; auto. intros Hn. apply Hk.
      intros H. apply Hn. rewrite <- app_assoc. exact H. }
  assert (Hgen_many : forall fs stations1 used t upd0,
    update_many fs stations1 t = Some upd0 ->
    (forall r1, In r1 t ->
       exists r, In r tbl /\ tanggal r1 = tanggal r /\ stasiun r1 = stasiun r /\
         (~ In (stasiun r) used -> pm25_ugm3 r1 = pm25_ugm3 r)) ->
    forall r1, In r1 upd0 ->
       exists r, In r tbl /\ tanggal r1 = tanggal r /\ stasiun r1 = stasiun r /\
         (~ In (stasiun r) (rev stations1 ++ used) -> pm25_ugm3 r1 = pm25_ugm3 r)).
  { intros fs. induction fs as [|f fs IH]; intros stations1 used t upd0 Hu Ht; simpl in Hu.
    - inversion Hu; subst upd0. intros r1 Hin.
      destruct (Ht r1 Hin) as (r & Hr & Ed & Es & Hk).
      exists r. repeat split; auto. intros Hn. apply Hk.
      intros H. apply Hn. apply in_or_app. now right.
    - destruct stations1 as [|s stations1]; [discriminate|].
      intros r1 Hin.
      destruct (IH stations1 (s :: used) (update f s t) upd0 Hu
                  (Hstep f s t used Ht) r1 Hin) as (r & Hr & Ed & Es & Hk).
      exists r. repeat split; auto. intros Hn. apply Hk.
      intros H. apply Hn. simpl. rewrite <- app_assoc. exact H. }
  assert (H0 : forall r1, In r1 tbl ->
       exists r, In r tbl /\ tanggal r1 = tanggal r /\ stasiun r1 = stasiun r /\
         (~ In (stasiun r) [] -> pm25_ugm3 r1 = pm25_ugm3 r))
    by (intros r1 H1; exists r1; auto).
  intros Hu Hin.
  assert (Hres : exists r, In r tbl /\ tanggal r' = tanggal r /\
            stasiun r' = stasiun r /\
            (~ In (stasiun r) (rev stations ++ []) -> pm25_ugm3 r' = pm25_ugm3 r)).
  { destruct input as [f|fs]; simpl in Hu.
    - inversion Hu; subst upd. exact (Hgen_each f stations [] tbl H0 r' Hin).
    - exact (Hgen_many fs stations [] tbl upd Hu H0 r' Hin). }
  destruct Hres as (r & Hr & Ed & Es & Hk).
  exists r. repeat split; auto. intros Hn. apply Hk.
  rewrite app_nil_r. intros H. apply Hn. now apply in_rev.
Qed.

Lemma forward_of_nan x :
  isnan x = true -> concentration_to_aqi "pm25" x = Ok (Float x).
Proof.
  intros H. unfold concentration_to_aqi, c2a.concentration_to_aqi.
  cbn [lookup c2a.aqi_conversion_table String.eqb Ascii.eqb Bool.eqb bind].
  rewrite H. rewrite andb_false_r, orb_true_r. reflexivity.
Qed.

(** Property X19.  A cell on which a reverse conversion raises aborts the
    whole merge: with one such row in the input, no table is returned. *)
Theorem merge_aborts_on_bad_index input tbl stations r e :
  In r tbl ->
  aqi_to_concentration "pm10" (pm10 r) = Raise e \/
  aqi_to_concentration "so2" (so2 r) = Raise e \/
  aqi_to_concentration "co" (co r) = Raise e \/
  aqi_to_concentration "o3" (o3 r) = Raise e \/
  aqi_to_concentration "no2" (no2 r) = Raise e ->
  forall out, merge_pm25_aqi_raw_data input tbl stations <> Done out.
Proof.
  intros Hin Hbad out Hm.
  destruct (merge_done _ _ _ _ Hm) as (upd & Hu & HF).
  destruct (updated_covers _ _ _ _ r Hu Hin)
    as (r' & Hin' & E10 & Eso2 & Eco & Eo3 & Eno2).
  assert (Hs : In r' (RowSort.sort upd))
    by (apply (Permutation_in _ (RowSort.Permuted_sort _)); assumption).
  assert (Hex : exists m, derive r' = Ok m).
  { clear -HF Hs. induction HF as [|a b l l' H0 _ IH]; [contradiction|].
    destruct Hs as [->|Hs]; eauto. }
  destruct Hex as [m Hd].
  destruct (derive_cells r' m Hd)
    as (_ & _ & _ & _ & _ & _ & _ & _ & a & b & c & d & e0 & g &
        _ & _ & Hb & _ & Hc & _ & Hd' & _ & He & _ & Hg & _).
  rewrite E10 in Hb. rewrite Eso2 in Hc. rewrite Eco in Hd'.
  rewrite Eo3 in He. rewrite Eno2 in Hg.
  destruct Hbad as [H|[H|[H|[H|H]]]]; congruence.
Qed.

Lemma merge_aborts_on_bad_index_witness :
  merge_pm25_aqi_raw_data (Many [])
    [mkrow 15000 "DKI2 (Kelapa Gading)" nan 50.5 41 42 43 44] pm25_stations
  <> Done [].
Proof.
  apply (merge_aborts_on_bad_index (Many [])
           [mkrow 15000 "DKI2 (Kelapa Gading)" nan 50.5 41 42 43 44]
           pm25_stations
           (mkrow 15000 "DKI2 (Kelapa Gading)" nan 50.5 41 42 43 44)
           ZeroDivisionError).
  - now left.
  - left. vm_compute. reflexivity.
Defined.

(** Property X20.  The aligned table merged with PM2.5 frames for DKI1 and
    DKI3: in every row of another station the PM2.5 concentration and the
    PM2.5 index are both missing, whatever the raw data and the frames hold. *)
Theorem merge_leaves_other_stations_without_pm25 input stations raw out m :
  Forall unique_days (frames input) ->
  merge_pm25_aqi_raw_data input
    (load_and_process_aqi_raw_data stations raw) pm25_stations = Done out ->
  In m out ->
  m_stasiun m <> "DKI1 (Bunderan HI)"%string ->
  m_stasiun m <> "DKI3 (Jagakarsa)"%string ->
  isnan (m_pm25_ugm3 m) = true /\ isnan (m_pm25 m) = true.
Proof.
  intros _ Hm Hin H1 H3.
  destruct (merge_done _ _ _ _ Hm) as (upd & Hu & HF).
  destruct (forall2_in_r _ _ _ _ HF Hin) as (r' & Hr' & Hd).
  apply (Permutation_in _ (Permutation_sym (RowSort.Permuted_sort _))) in Hr'.
  destruct (updated_sources _ _ _ _ r' Hu Hr') as (r & Hr & _ & Es & Hk).
  destruct (derive_cells r' m Hd)
    as (_ & Ems & E25 & _ & _ & _ & _ & _ & a & b & c & d & e0 & g & Ha & Hma & _).
  assert (Hnot : ~ In (stasiun r) pm25_stations).
  { rewrite <- Es, <- Ems. simpl. intros [E|[E|[]]]; congruence. }
  assert (Hnan : isnan (pm25_ugm3 r') = true).
  { rewrite (Hk Hnot).
    apply (load_pm25_cleared stations raw r Hr); congruence. }
  rewrite E25. split; [assumption|].
  rewrite Hma. rewrite (forward_of_nan _ Hnan) in Ha.
  inversion Ha; subst a. exact Hnan.
Qed.

Lemma merge_leaves_other_stations_without_pm25_witness :
  isnan nan = true /\ isnan nan = true.
Proof.
  apply (merge_leaves_other_stations_without_pm25 (Many []) []
           [mkrow 15000 "DKI2 (Kelapa Gading)" 12 40 41 42 43 44]
           [mkmerged 15000 "DKI2 (Kelapa Gading)" nan nan 40 40 42.6 41
              3360 42 103.2 43 70.4 44]
           (mkmerged 15000 "DKI2 (Kelapa Gading)" nan nan 40 40 42.6 41
              3360 42 103.2 43 70.4 44)).
  - constructor.
  - vm_compute. reflexivity.
  - now left.
  - discriminate.
  - discriminate.
Defined.

(** Property X21.  With two frames, of distinct days each, for two different
    stations, a row of either station takes the PM2.5 concentration of its
    station's frame for its day whenever the frame has a value there,
    whatever the combined table held; where the frame has none, the row
    keeps the value of a row of the combined table for that station and day. *)
Theorem merge_takes_frame_value f1 f2 s1 s2 tbl out m :
  unique_days f1 -> unique_days f2 ->
  merge_pm25_aqi_raw_data (Many [f1; f2]) tbl [s1; s2] = Done out ->
  s1 <> s2 -> In m out ->
  (m_stasiun m = s1 -> isnan (reindex f1 (m_tanggal m)) = false ->
   m_pm25_ugm3 m = reindex f1 (m_tanggal m)) /\
  (m_stasiun m = s2 -> isnan (reindex f2 (m_tanggal m)) = false ->
   m_pm25_ugm3 m = reindex f2 (m_tanggal m)) /\
  ((m_stasiun m = s1 -> isnan (reindex f1 (m_tanggal m)) = true) ->
   (m_stasiun m = s2 -> isnan (reindex f2 (m_tanggal m)) = true) ->
   exists r, In r tbl /\ stasiun r = m_stasiun m /\ tanggal r = m_tanggal m /\
             m_pm25_ugm3 m = pm25_ugm3 r).
Proof.
  intros _ _ Hm Hne Hin.
  destruct (merge_done _ _ _ _ Hm) as (upd & Hu & HF).
  destruct (forall2_in_r _ _ _ _ HF Hin) as (r2 & Hr2 & Hd).
  apply (Permutation_in _ (Permutation_sym (RowSort.Permuted_sort _))) in Hr2.
  simpl in Hu. inversion Hu; subst upd; clear Hu.
  destruct (update_keeps f2 s2 _ r2 Hr2)
    as (r1 & Hr1 & Ed2 & Es2 & _ & _ & _ & _ & _ & Hpm2 & Hset2).
  destruct (update_keeps f1 s1 _ r1 Hr1)
    as (r0 & Hr0 & Ed1 & Es1 & _ & _ & _ & _ & _ & Hpm1 & Hset1).
  destruct (derive_cells r2 m Hd) as (Emd & Ems & E25 & _).
  rewrite E25, Emd, Ems. repeat split.
  - intros E Hn.
    destruct Hpm2 as [->|(E2 & _ & _)]; [|congruence].
    rewrite Ed2, Ed1 in *. apply Hset1; congruence.
  - intros E Hn. rewrite Ed2 in *. apply Hset2; congruence.
  - intros H1 H2. exists r0. repeat split; try congruence.
    destruct Hpm2 as [->|(E2 & Hn2 & _)].
    + destruct Hpm1 as [->|(E1 & Hn1 & _)]; [reflexivity|].
      rewrite Ed2, Ed1 in H1. rewrite H1 in Hn1; [discriminate|congruence].
    + rewrite Ed2 in H2. rewrite H2 in Hn2; [discriminate|congruence].
Qed.

Lemma merge_takes_frame_value_witness :
  reindex [(15000%Z, 20)] 15000 = 20.
Proof.
  assert (H : m_pm25_ugm3
                (mkmerged 15000 "DKI1 (Bunderan HI)" 20 56 40 40 42.6 41
                   3360 42 103.2 43 70.4 44)
              = reindex [(15000%Z, 20)] 15000).
  { apply (proj1 (merge_takes_frame_value [(15000%Z, 20)] []
                    "DKI1 (Bunderan HI)" "DKI3 (Jagakarsa)"
                    [mkrow 15000 "DKI1 (Bunderan HI)" 12 40 41 42 43 44]
                    [mkmerged 15000 "DKI1 (Bunderan HI)" 20 56 40 40 42.6 41
                       3360 42 103.2 43 70.4 44]
                    (mkmerged 15000 "DKI1 (Bunderan HI)" 20 56 40 40 42.6 41
                       3360 42 103.2 43 70.4 44)
                    ltac:(repeat constructor; simpl; tauto)
                    ltac:(constructor)
                    ltac:(vm_compute; reflexivity)
                    ltac:(discriminate)
                    (or_introl eq_refl))); reflexivity. }
  symmetry. exact H.
Defined.

End Merge.

(* ================================================================= *)
(** ** Rounding in the loader and in the daily table *)

Section Rounding.
Import Py merge_daily_data merge_pm25 Wf FloatOrder.
#[local] Open Scope float_scope.

Lemma digits2_bound m : (Zpos m < 2 ^ Zpos (digits2_pos m))%Z.
Proof.
  induction m as [m IH|m IH|]; simpl digits2_pos.
  - rewrite Pos2Z.inj_succ, Z.pow_succ_r by lia. lia.
  - rewrite Pos2Z.inj_succ, Z.pow_succ_r by lia. lia.
  - reflexivity.
Qed.

(** A mean above 0 and at most 0.5 is rounded to 0. *)
Lemma round0_small x :
  (0 <? x) = true -> (x <=? 0.5) = true -> Np.round0 x = 0.
Proof.
  intros H0 H1.
  destruct (ltb_not_nan _ _ H0) as [Hz Hx].
  destruct (leb_not_nan _ _ H1) as [_ Hh].
  rewrite (ltb_key _ _ Hz Hx) in H0. rewrite (leb_key _ _ Hx Hh) in H1.
  pose proof (Prim2SF_valid x) as Hv.
  unfold Np.round0, key in *.
  change (Prim2SF 0) with (S754_zero false) in H0.
  change (Prim2SF 0.5) with (S754_finite false 4503599627370496 (-53)) in H1.
  destruct (Prim2SF x) as [s|s| |s m e].
  - discriminate.
  - destruct s; discriminate.
  - discriminate.
  - destruct s; [discriminate|]. clear H0.
    unfold lex3, rank in H1. cbn [fst snd] in H1.
    change (1 ?= 1)%Z with Eq in H1. cbv iota in H1.
    unfold valid_binary, bounded, canonical_mantissa, fexp in Hv.
    apply andb_true_iff in Hv. destruct Hv as [Hv _].
    apply Z.eqb_eq in Hv.
    pose proof (digits2_bound m) as Hd.
    assert (Hdig : (Zpos (digits2_pos m) <= 53)%Z).
    { pose proof (Z.le_max_l (Zpos (digits2_pos m) + e - 53)
                    (SpecFloat.emin prec emax)) as Hle.
      change (Z.max (Zpos (digits2_pos m) + e - 53) (SpecFloat.emin prec emax))
        with (IntDef.Z.max (Zpos (digits2_pos m) + e - prec) (SpecFloat.emin prec emax))
        in Hle.
      rewrite Hv in Hle. lia. }
    assert (Hm : (Zpos m < 2 ^ 53)%Z).
    { eapply Z.lt_le_trans; [exact Hd|]. apply Z.pow_le_mono_r; lia. }
    assert (He : (e < -53 \/ e = -53 /\ Zpos m <= 4503599627370496)%Z).
    { destruct (Z.compare_spec e (-53)); [right|left; assumption|discriminate].
      split; [assumption|].
      destruct (Z.compare_spec (Zpos m) 4503599627370496); try discriminate; lia. }
    destruct e as [|p|p]; [lia|lia|].
    assert (Hround : round_half_even (Zpos m) (Zneg p) = 0%Z).
    { unfold round_half_even.
      change (Z.pow_pos 2 p) with (2 ^ Zpos p)%Z.
      assert (Hp : (2 ^ 53 <= 2 ^ Zpos p)%Z) by (apply Z.pow_le_mono_r; lia).
      assert (H2m : (2 * Zpos m <= 2 ^ Zpos p)%Z).
      { destruct He as [He|[He Hm']].
        - assert ((2 ^ 54 <= 2 ^ Zpos p)%Z) by (apply Z.pow_le_mono_r; lia).
          change (2 ^ 54)%Z with (2 * 2 ^ 53)%Z in H. lia.
        - assert (Zpos p = 53%Z) by lia. rewrite H.
          change (2 ^ 53)%Z with 9007199254740992%Z. lia. }
      rewrite (Z.div_small (Zpos m)), (Z.mod_small (Zpos m)) by lia.
      destruct (Z.compare_spec (2 * Zpos m) (2 ^ Zpos p)); [reflexivity|reflexivity|lia]. }
    rewrite Hround. reflexivity.
Qed.

(** Property X22.  The PM2.5 loader removes the daily means that are not
    above 0 before it rounds them, so a zero can come back: a day whose mean
    is above 0 and at most 0.5 stays in the frame, with concentration 0. *)
Theorem loader_keeps_means_rounding_to_zero daily d x :
  In (d, x) daily -> (0 <? x) = true -> (x <=? 0.5) = true ->
  In (d, 0) (load_pm25.process_city daily).
Proof.
  intros Hin H0 H1. unfold load_pm25.process_city.
  apply in_map_iff. exists (d, x). split.
  - simpl. now rewrite (round0_small x H0 H1).
  - apply filter_In. split; [assumption|exact H0].
Qed.

Lemma loader_keeps_means_rounding_to_zero_witness :
  In (15000%Z, 0) (load_pm25.process_city [(15000%Z, 0.4)]).
Proof.
  apply (loader_keeps_means_rounding_to_zero [(15000%Z, 0.4)] 15000 0.4).
  - now left.
  - reflexivity.
  - reflexivity.
Defined.

Lemma reindex_absent f d : ~ In d (map fst f) -> reindex f d = nan.
Proof.
  induction f as [|[d' v] f IH]; simpl; intros H; [reflexivity|].
  destruct (Z.eqb_spec d' d) as [->|_].
  - exfalso. apply H. now left.
  - apply IH. intros Hin. apply H. now right.
Qed.

Lemma nodup_fst_unique (f : frame) d x y :
  NoDup (map fst f) -> In (d, x) f -> In (d, y) f -> x = y.
Proof.
  induction f as [|[d' v] f IH]; simpl; intros Hnd Hx Hy; [contradiction|].
  inversion Hnd as [|? ? Hnot Hnd']; subst.
  destruct Hx as [Ex|Hx], Hy as [Ey|Hy].
  - congruence.
  - inversion Ex; subst. exfalso. apply Hnot.
    apply (in_map fst f (d, y) Hy).
  - inversion Ey; subst. exfalso. apply Hnot.
    apply (in_map fst f (d, x) Hx).
  - now apply IH.
Qed.

(** Property X23.  A day whose mean is missing, zero or negative is not in
    the frame of the loader (each day having one mean), so the merge finds
    no value for it, and an update with the frame leaves the rows of that
    day as they are, for every station. *)
Theorem loader_drops_nonpositive daily d x :
  NoDup (map fst daily) -> In (d, x) daily -> (0 <? x) = false ->
  ~ In d (map fst (load_pm25.process_city daily)) /\
  isnan (reindex (load_pm25.process_city daily) d) = true /\
  forall s tbl r, In r tbl -> tanggal r = d ->
    In r (update (load_pm25.process_city daily) s tbl).
Proof.
  intros Hnd Hin H0.
  assert (Hnot : ~ In d (map fst (load_pm25.process_city daily))).
  { unfold load_pm25.process_city. rewrite map_map. simpl.
    intros H. apply in_map_iff in H. destruct H as ([d' x'] & Ed & H).
    simpl in Ed. subst d'. apply filter_In in H. destruct H as [H Hpos].
    simpl in Hpos. rewrite (nodup_fst_unique daily d x x' Hnd Hin H) in H0.
    congruence. }
  split; [assumption|]. rewrite (reindex_absent _ _ Hnot).
  split; [reflexivity|].
  intros s tbl r Hr Hd. unfold update. apply in_map_iff. exists r.
  split; [|assumption].
  rewrite Hd, (reindex_absent _ _ Hnot). change (isnan nan) with true.
  now rewrite orb_true_r.
Qed.

Lemma loader_drops_nonpositive_witness :
  ~ In 15000%Z (map fst (load_pm25.process_city [(15000%Z, -3); (15001%Z, 7)])) /\
  isnan (reindex (load_pm25.process_city [(15000%Z, -3); (15001%Z, 7)]) 15000)
  = true /\
  forall s tbl r, In r tbl -> tanggal r = 15000%Z ->
    In r (update (load_pm25.process_city [(15000%Z, -3); (15001%Z, 7)]) s tbl).
Proof.
  apply (loader_drops_nonpositive [(15000%Z, -3); (15001%Z, 7)] 15000 (-3)).
  - repeat constructor; simpl; intuition discriminate.
  - now left.
  - reflexivity.
Defined.

Lemma isnan_is_nan x : isnan x = true -> x = nan.
Proof.
  intros H. apply Prim2SF_inj.
  destruct (Prim2SF x) eqn:E; try reflexivity; exfalso;
    assert (Hn : Prim2SF x <> S754_nan) by (rewrite E; discriminate);
    apply isnan_false in Hn; unfold isnan in H; congruence.
Qed.

Lemma max_of_missing r :
  Forall (fun c => isnan (snd c) = true) (columns r) -> max_column r = nan.
Proof.
  intros H. unfold max_column.
  rewrite (max_argmax (columns r) nan eq_refl), (argmax_all_nan _ H).
  reflexivity.
Qed.

(** Property X24.  A day whose six sub-indices are all missing gets the
    composite index 0, once the column is filled, rounded and cast, and the
    category "TIDAK ADA DATA". *)
Theorem missing_row_is_no_data r :
  Forall (fun c => isnan (snd c) = true) (columns r) ->
  daily_final.max_final r = Some 0%Z /\
  daily_final.category_of r = Some "TIDAK ADA DATA"%string.
Proof.
  intros H. unfold daily_final.category_of, daily_final.max_final.
  rewrite (max_of_missing r H). split; reflexivity.
Qed.

Lemma missing_row_is_no_data_witness :
  daily_final.max_final (mksub nan nan nan nan nan nan) = Some 0%Z /\
  daily_final.category_of (mksub nan nan nan nan nan nan)
  = Some "TIDAK ADA DATA"%string.
Proof.
  apply (missing_row_is_no_data (mksub nan nan nan nan nan nan)).
  repeat constructor.
Defined.

(** Property X25.  A day that has data gets the composite index 0 and the
    category "TIDAK ADA DATA" as well when its largest sub-index is above 0
    and at most 0.5: the rounding makes it 0. *)
Theorem small_index_is_no_data r :
  (0 <? max_column r) = true -> (max_column r <=? 0.5) = true ->
  daily_final.max_final r = Some 0%Z /\
  daily_final.category_of r = Some "TIDAK ADA DATA"%string.
Proof.
  intros H0 H1. unfold daily_final.category_of, daily_final.max_final.
  destruct (ltb_not_nan _ _ H0) as [_ Hn].
  unfold Np.fillna0. change (isnan (max_column r)) with (PrimFloat.is_nan (max_column r)).
  rewrite Hn, (round0_small _ H0 H1). split; reflexivity.
Qed.

Lemma small_index_is_no_data_witness :
  daily_final.max_final (mksub nan 0.5 nan 0.25 nan nan) = Some 0%Z /\
  daily_final.category_of (mksub nan 0.5 nan 0.25 nan nan)
  = Some "TIDAK ADA DATA"%string.
Proof.
  apply (small_index_is_no_data (mksub nan 0.5 nan 0.25 nan nan));
    reflexivity.
Defined.

End Rounding.
